(** * The in-app assistant endpoint of [app.py]

    A shallow embedding of the request handler [ai_assistant], of its helper
    [format_chat_history] and of the prompt it sends to the chat-completion
    endpoint, followed by the properties of the handler.

    Python values that reach the handler are parsed JSON, so they are
    modelled by the type [json]; Python strings are sequences of Unicode
    code points; an exception is a value of [exn], and code that may raise
    returns in the error monad [outcome]. *)

From Stdlib Require Import ZArith NArith List String Ascii.
From stdpp Require Import gmap list.

Set Warnings "-register-all".
Local Open Scope N_scope.

(** ** Python strings *)

(** A [str] is a sequence of code points. *)
Definition pystr := list N.

Module Utf8.

(** Source text is UTF-8; [decode] turns the bytes of a literal into the
    code points of the Python string it denotes. *)
Definition cont (b : N) : N := N.land b 0x3F.

Fixpoint decode (bs : list N) : pystr :=
  match bs with
  | [] => []
  | b :: t =>
      if b <? 0x80 then b :: decode t
      else if b <? 0xE0 then
        match t with
        | b1 :: t1 => (N.shiftl (N.land b 0x1F) 6 + cont b1) :: decode t1
        | [] => [b]
        end
      else if b <? 0xF0 then
        match t with
        | b1 :: b2 :: t2 =>
            (N.shiftl (N.land b 0x0F) 12 + N.shiftl (cont b1) 6 + cont b2)
              :: decode t2
        | _ => [b]
        end
      else
        match t with
        | b1 :: b2 :: b3 :: t3 =>
            (N.shiftl (N.land b 0x07) 18 + N.shiftl (cont b1) 12
             + N.shiftl (cont b2) 6 + cont b3) :: decode t3
        | _ => [b]
        end
  end.

Fixpoint bytes (s : string) : list N :=
  match s with
  | EmptyString => []
  | String a t => N_of_ascii a :: bytes t
  end.

End Utf8.

(** [u8 "text"] is the Python string written ["text"] in the source. *)
Definition u8 (s : string) : pystr := Utf8.decode (Utf8.bytes s).

(** The double quote, which a literal of this file cannot hold. *)
Definition dquote : pystr := [34].

(** [str.isspace] on one code point: the white space of the Unicode
    database, which is what [str.strip()] removes. *)
Definition isspace (c : N) : bool :=
  ((0x09 <=? c) && (c <=? 0x0D)) || ((0x1C <=? c) && (c <=? 0x20))
  || (c =? 0x85) || (c =? 0xA0) || (c =? 0x1680)
  || ((0x2000 <=? c) && (c <=? 0x200A))
  || (c =? 0x2028) || (c =? 0x2029) || (c =? 0x202F) || (c =? 0x205F)
  || (c =? 0x3000).

Fixpoint lstrip (s : pystr) : pystr :=
  match s with
  | [] => []
  | c :: t => if isspace c then lstrip t else s
  end.

Definition rstrip (s : pystr) : pystr := rev (lstrip (rev s)).

(** [s.strip()] *)
Definition strip (s : pystr) : pystr := rstrip (lstrip s).

(** [str.lower] follows the case mappings of the Unicode database and is a
    parameter of the development.  On ASCII text it is [ascii_lower], which
    is the instance used wherever a concrete run is evaluated. *)
Definition ascii_lower_char (c : N) : N :=
  if (0x41 <=? c) && (c <=? 0x5A) then c + 0x20 else c.

Definition ascii_lower (s : pystr) : pystr := map ascii_lower_char s.

(** [sep.join(parts)] *)
Fixpoint join (sep : pystr) (parts : list pystr) : pystr :=
  match parts with
  | [] => []
  | [x] => x
  | x :: rest => x ++ sep ++ join sep rest
  end.

(** ** Parsed JSON values *)

(** A float is kept as its IEEE-754 bit pattern; no operation of the
    program looks inside one. *)
Inductive json :=
| JNull
| JBool (b : bool)
| JInt (n : Z)
| JFloat (bits : Z)
| JStr (s : pystr)
| JArr (items : list json)
| JObj (fields : gmap (list N) json).

Inductive pytype := NoneType | Tbool | Tint | Tfloat | Tstr | Tlist | Tdict.

Definition type_of (v : json) : pytype :=
  match v with
  | JNull => NoneType
  | JBool _ => Tbool
  | JInt _ => Tint
  | JFloat _ => Tfloat
  | JStr _ => Tstr
  | JArr _ => Tlist
  | JObj _ => Tdict
  end.

(** ** Exceptions *)

(** The exceptions of class [Exception] that the handler can meet: those the
    interpreter raises on an ill-typed value, [HTTPError] from
    [raise_for_status], and [Raised], an exception coming out of a
    collaborator ([request.get_json], [requests.post], [response.json]),
    identified by its detail. *)
Inductive exn :=
| AttributeError (obj : pytype) (attr : string)
| KeyError (key : json)
| IndexError (obj : pytype)
| TypeError (obj : pytype) (index : pytype)
| HTTPError (status : Z)
| Raised (detail : pystr).

Definition outcome (A : Type) : Type := exn + A.

Definition ret {A} (a : A) : outcome A := inr a.
Definition raise {A} (e : exn) : outcome A := inl e.
Definition bind {A B} (r : outcome A) (k : A -> outcome B) : outcome B :=
  match r with
  | inl e => inl e
  | inr a => k a
  end.

Declare Scope outcome_scope.
Delimit Scope outcome_scope with outcome.
Notation "x <- r ;; k" := (bind r (fun x => k))
  (at level 100, r at next level, right associativity) : outcome_scope.
Local Open Scope outcome_scope.

(** ** Operations of the interpreter on JSON values *)

(** [v.get(key, default)] *)
Definition py_get (v : json) (key : pystr) (default : json) : outcome json :=
  match v with
  | JObj fields =>
      match fields !! key with
      | Some x => ret x
      | None => ret default
      end
  | _ => raise (AttributeError (type_of v) "get")
  end.

(** [v.lower()] *)
Definition py_lower (lower : pystr -> pystr) (v : json) : outcome pystr :=
  match v with
  | JStr s => ret (lower s)
  | _ => raise (AttributeError (type_of v) "lower")
  end.

(** [v.strip()] *)
Definition py_strip (v : json) : outcome pystr :=
  match v with
  | JStr s => ret (strip s)
  | _ => raise (AttributeError (type_of v) "strip")
  end.

(** [v[key]] for a string [key].  The keys of a parsed JSON object are
    strings. *)
Definition py_getitem (v : json) (key : pystr) : outcome json :=
  match v with
  | JObj fields =>
      match fields !! key with
      | Some x => ret x
      | None => raise (KeyError (JStr key))
      end
  | _ => raise (TypeError (type_of v) Tstr)
  end.

(** [v[i]] for an integer [i], negative indices counting from the end. *)
Definition py_getitem_int (v : json) (i : Z) : outcome json :=
  match v with
  | JArr items =>
      let n := Z.of_nat (length items) in
      let j := (if i <? 0 then i + n else i)%Z in
      if (j <? 0)%Z then raise (IndexError Tlist)
      else match nth_error items (Z.to_nat j) with
           | Some x => ret x
           | None => raise (IndexError Tlist)
           end
  | JStr s =>
      let n := Z.of_nat (length s) in
      let j := (if i <? 0 then i + n else i)%Z in
      if (j <? 0)%Z then raise (IndexError Tstr)
      else match nth_error s (Z.to_nat j) with
           | Some c => ret (JStr [c])
           | None => raise (IndexError Tstr)
           end
  | JObj _ => raise (KeyError (JInt i))
  | _ => raise (TypeError (type_of v) Tint)
  end.

(** ** The history formatter *)

Definition User_prefix : pystr := Eval vm_compute in u8 "User: ".
Definition AI_prefix : pystr := Eval vm_compute in u8 "AI: ".
Definition newline : pystr := [10].
Definition key_role : pystr := Eval vm_compute in u8 "role".
Definition key_content : pystr := Eval vm_compute in u8 "content".
Definition role_user : pystr := Eval vm_compute in u8 "user".
Definition role_assistant : pystr := Eval vm_compute in u8 "assistant".
Definition role_bot : pystr := Eval vm_compute in u8 "bot".

Section Formatter.

Variable lower : pystr -> pystr.

(** The body of [for msg in history], with the list [formatted] built so
    far; an exception leaves the loop at the element that raises. *)
Fixpoint format_loop (history : list json) (formatted : list pystr)
  : outcome (list pystr) :=
  match history with
  | [] => ret formatted
  | msg :: rest =>
      role_v <- py_get msg key_role (JStr []) ;;
      role <- py_lower lower role_v ;;
      content_v <- py_get msg key_content (JStr []) ;;
      content <- py_strip content_v ;;
      if decide (role = role_user) then
        format_loop rest (formatted ++ [User_prefix ++ content])
      else if decide (role = role_assistant \/ role = role_bot) then
        format_loop rest (formatted ++ [AI_prefix ++ content])
      else format_loop rest formatted
  end.

Definition format_chat_history (history : json) : outcome pystr :=
  match history with
  | JArr items =>
      formatted <- format_loop items [] ;;
      ret (join newline formatted)
  | _ => ret []
  end.

End Formatter.

(** ** Replies of the endpoint *)

(** The [error] field of a failure reply is either a fixed text or [str(e)]
    for the exception [e] that was caught. *)
Inductive message :=
| Literal (text : pystr)
| Str (e : exn).

(** [Success answer model tokens] is the reply
    [jsonify({"success": True, "answer": .., "model_used": ..,
    "tokens_used": ..})], sent with status 200; [Failure message status] is
    the pair [(jsonify({"success": False, "error": message}), status)]. *)
Inductive AssistantResult :=
| Success (answer model tokens : json)
| Failure (error : message) (status_code : Z).

(** Both call sites pass [status_code]; its default value 400 is unused. *)
Definition error_response (error : message) (status_code : Z) : AssistantResult :=
  Failure error status_code.

Definition success_response (answer model tokens : json) : AssistantResult :=
  Success answer model tokens.

(** ** The outbound call *)

Record chat_message := { role : pystr; content : pystr }.

(** [temperature] is the decimal [mantissa * 10 ^ exponent]. *)
Record request_body := {
  model : pystr;
  messages : list chat_message;
  temperature : Z * Z;
  max_tokens : Z
}.

Record post_call := {
  url : pystr;
  headers : list (pystr * pystr);
  body : request_body
}.

(** What the handler reads of a [requests.Response]: the status code and
    the outcome of [response.json()]. *)
Record response := {
  status_code : Z;
  response_json : outcome json
}.

(** [response.raise_for_status()] raises for the client and server error
    codes. *)
Definition raise_for_status (r : response) : outcome unit :=
  if ((400 <=? status_code r) && (status_code r <? 600))%Z
  then raise (HTTPError (status_code r))
  else ret tt.

(** Code that may raise and that records the calls it makes to the
    endpoint.  A raise keeps the calls made before it. *)
Definition M (A : Type) : Type := list post_call -> outcome A * list post_call.

Definition mret {A} (a : A) : M A := fun calls => (inr a, calls).
Definition lift {A} (r : outcome A) : M A := fun calls => (r, calls).
Definition mbind {A B} (m : M A) (k : A -> M B) : M B :=
  fun calls =>
    match m calls with
    | (inl e, calls') => (inl e, calls')
    | (inr a, calls') => k a calls'
    end.

Declare Scope M_scope.
Delimit Scope M_scope with M.
Notation "x <- m ;; k" := (mbind m (fun x => k))
  (at level 100, m at next level, right associativity) : M_scope.

(** ** The prompt *)

Definition prompt_preamble : pystr := u8 "
📘 You are a helpful and professional in-app assistant for a mobile or web application. Your task is to answer users' questions **only** using the official application documentation below.

---

### 📚 Application Documentation:
".

Definition history_heading : pystr := u8 "

---

### 🧠 Conversation History:
".

Definition no_prior_conversation : pystr :=
  Eval vm_compute in u8 "No prior conversation.".

Definition question_heading : pystr := u8 "

---

### ❓ User's Current Question:
".

Definition instructions : pystr :=
  u8 "

---

### ✅ Instructions:
-**Answer in the same language the user used** (English or French).
- Answer using only the information in the documentation.
- Never mention the documentation or say " ++ dquote ++ u8 "based on the docs" ++ dquote ++ u8 "
- Never reveal you're an AI or bot
- Use a friendly, clear, and helpful tone, like a knowledgeable support agent.
- Avoid technical jargon unless it's present in the documentation.
- If the documentation contains a direct or inferred answer, respond concisely and professionally.
- If the answer is NOT in the documentation, respond exactly with:

    😊 " ++ dquote ++ u8 "I can't help with that, but our support team can! 💬

- Do NOT guess, speculate, or invent information.
- Do NOT mention the documentation unless explicitly asked.
- Do NOT reveal you are an AI or language model; respond as a helpful assistant.
- Keep responses focused, informative, and approachable.
".

(** [chat_history if chat_history else "No prior conversation."] *)
Definition history_section (chat_history : pystr) : pystr :=
  match chat_history with
  | [] => no_prior_conversation
  | _ => chat_history
  end.

(** The f-string bound to [prompt]. *)
Definition prompt (app_documentation chat_history user_question : pystr) : pystr :=
  prompt_preamble ++ app_documentation
  ++ history_heading ++ history_section chat_history
  ++ question_heading ++ user_question
  ++ instructions.

(** ** The handler *)

Definition GROQ_URL : pystr := u8 "https://api.groq.com/openai/v1/chat/completions".
Definition key_question : pystr := Eval vm_compute in u8 "question".
Definition key_history : pystr := Eval vm_compute in u8 "history".
Definition key_choices : pystr := Eval vm_compute in u8 "choices".
Definition key_message : pystr := Eval vm_compute in u8 "message".
Definition key_model : pystr := Eval vm_compute in u8 "model".
Definition key_usage : pystr := Eval vm_compute in u8 "usage".
Definition key_total_tokens : pystr := Eval vm_compute in u8 "total_tokens".

Definition documentation_missing : pystr :=
  u8 "Application documentation is missing or could not be loaded.".
Definition missing_question : pystr := u8 "Missing 'question' in request.".
Definition system_instruction : pystr :=
  u8 "You are a strict assistant who answers only based on the provided documentation and returns helpful, professional responses.".

(** Lines 150 to 157: what is read of the parsed reply. *)
Definition read_completion (result : json) : outcome AssistantResult :=
  choices <- py_getitem result key_choices ;;
  choice <- py_getitem_int choices 0 ;;
  choice_message <- py_getitem choice key_message ;;
  message <- py_getitem choice_message key_content ;;
  model <- py_get result key_model JNull ;;
  usage <- py_get result key_usage (JObj ∅) ;;
  tokens <- py_get usage key_total_tokens (JInt 0) ;;
  ret (success_response message model tokens).

Section Handler.

(** The globals of the module, and the two collaborators of one request:
    the outcome of [request.get_json()] and the behaviour of
    [requests.post]. *)
Variable lower : pystr -> pystr.
Variable GROQ_API_KEY : pystr.
Variable app_documentation : pystr.
Variable get_json : outcome json.
Variable upstream : post_call -> outcome response.

Definition requests_post (call : post_call) : M response :=
  fun calls => (upstream call, calls ++ [call]).

Definition build_call (user_prompt : pystr) : post_call :=
  {| url := GROQ_URL;
     headers := [ (u8 "Authorization", u8 "Bearer " ++ GROQ_API_KEY);
                  (u8 "Content-Type", u8 "application/json") ];
     body := {| model := u8 "meta-llama/llama-4-scout-17b-16e-instruct";
                messages := [ {| role := u8 "system";
                                 content := system_instruction |};
                              {| role := u8 "user";
                                 content := user_prompt |} ];
                temperature := (2, -1)%Z;
                max_tokens := 1000 |} |}.

(** The body of the [try] statement. *)
Definition ai_assistant_try : M AssistantResult :=
  (data <- lift get_json ;;
   question_v <- lift (py_get data key_question (JStr [])) ;;
   user_question <- lift (py_strip question_v) ;;
   chat_history_raw <- lift (py_get data key_history (JArr [])) ;;
   match app_documentation with
   | [] => mret (error_response (Literal documentation_missing) 500)
   | _ =>
       match user_question with
       | [] => mret (error_response (Literal missing_question) 400)
       | _ =>
           chat_history <- lift (format_chat_history lower chat_history_raw) ;;
           response <- requests_post
                         (build_call (prompt app_documentation chat_history
                                        user_question)) ;;
           _ <- lift (raise_for_status response) ;;
           result <- lift (response_json response) ;;
           lift (read_completion result)
       end
   end)%M.

(** The handler: [except Exception as e] turns whatever the body raises
    into a reply.  The second component lists the calls made to the
    endpoint.  The line that [logger.error] writes is not part of the
    reply and is left out. *)
Definition ai_assistant : AssistantResult * list post_call :=
  match ai_assistant_try [] with
  | (inr reply, calls) => (reply, calls)
  | (inl e, calls) => (error_response (Str e) 500, calls)
  end.

End Handler.

(** ** Vocabulary of the statements *)

(** A history entry with the two fields [role] and [content]. *)
Definition turn (role content : pystr) : json :=
  JObj (<[key_role := JStr role]> (<[key_content := JStr content]> ∅)).

(** A field of a conversation turn: a string, the empty string when the
    field is missing, nothing when it holds another kind of value. *)
Definition read_field (fields : gmap (list N) json) (key : pystr) : option pystr :=
  match fields !! key with
  | None => Some []
  | Some (JStr s) => Some s
  | Some _ => None
  end.

(** The role and the content of a well-formed turn. *)
Definition read_turn (msg : json) : option (pystr * pystr) :=
  match msg with
  | JObj fields =>
      match read_field fields key_role, read_field fields key_content with
      | Some r, Some c => Some (r, c)
      | _, _ => None
      end
  | _ => None
  end.

Fixpoint read_turns (items : list json) : option (list (pystr * pystr)) :=
  match items with
  | [] => Some []
  | msg :: rest =>
      match read_turn msg, read_turns rest with
      | Some t, Some ts => Some (t :: ts)
      | _, _ => None
      end
  end.

(** The histories on which the formatter does not raise: everything that is
    not a list, and the lists of well-formed turns. *)
Definition history_ok (history : json) : bool :=
  match history with
  | JArr items => match read_turns items with Some _ => true | None => false end
  | _ => true
  end.

(** The line of one turn as the specification words it: the content is
    copied unchanged. *)
Definition turn_line_spec (lower : pystr -> pystr) (t : pystr * pystr)
  : option pystr :=
  if decide (lower t.1 = role_user) then Some (User_prefix ++ t.2)
  else if decide (lower t.1 = role_assistant \/ lower t.1 = role_bot)
       then Some (AI_prefix ++ t.2)
       else None.

(** The line of one turn as the code builds it: the content is stripped. *)
Definition turn_line (lower : pystr -> pystr) (t : pystr * pystr)
  : option pystr :=
  if decide (lower t.1 = role_user) then Some (User_prefix ++ strip t.2)
  else if decide (lower t.1 = role_assistant \/ lower t.1 = role_bot)
       then Some (AI_prefix ++ strip t.2)
       else None.

(** A request that passes both checks of the handler and whose history the
    formatter accepts: [q] is the stripped question, [h] the formatted
    history. *)
Definition valid_request (lower : pystr -> pystr) (app_documentation : pystr)
    (fields : gmap (list N) json) (q h : pystr) : Prop :=
  app_documentation <> []
  /\ (exists s, fields !! key_question = Some (JStr s) /\ strip s = q)
  /\ q <> []
  /\ format_chat_history lower (default (JArr []) (fields !! key_history)) = inr h.

(** The content of the user message of every call made to the endpoint. *)
Definition user_prompts (calls : list post_call) : list pystr :=
  flat_map (fun c => map content (filter (fun m => role m = role_user)
                                    (messages (body c)))) calls.

(** The request has no usable question: the field is missing, empty or
    all white space. *)
Definition blank_question (fields : gmap (list N) json) : bool :=
  match fields !! key_question with
  | None => true
  | Some (JStr s) => forallb isspace s
  | Some _ => false
  end.

(** Lines 147 to 157 on one call: the exchange with the endpoint and the
    reading of its reply. *)
Definition complete (upstream : post_call -> outcome response) (call : post_call)
  : outcome AssistantResult :=
  response <- upstream call ;;
  _ <- raise_for_status response ;;
  result <- response_json response ;;
  read_completion result.

(** The four places where the exchange can raise [e]: the call itself, the
    status check, the parsing of the reply, the reading of its fields. *)
Inductive upstream_failure (upstream : post_call -> outcome response)
    (call : post_call) (e : exn) : Prop :=
| post_raises :
    upstream call = inl e -> upstream_failure upstream call e
| status_raises r :
    upstream call = inr r -> raise_for_status r = inl e ->
    upstream_failure upstream call e
| json_raises r :
    upstream call = inr r -> raise_for_status r = inr tt ->
    response_json r = inl e -> upstream_failure upstream call e
| reading_raises r result :
    upstream call = inr r -> raise_for_status r = inr tt ->
    response_json r = inr result -> read_completion result = inl e ->
    upstream_failure upstream call e.

(** A reply of the shape
    [{model, choices: [{message: {content}}], usage: {total_tokens}}],
    where [usage] or its [total_tokens] may be missing and then count as 0. *)
Definition well_formed_reply (fields : gmap (list N) json)
    (answer model : pystr) (tokens : Z) : Prop :=
  (exists choice rest choice_message,
      fields !! key_choices = Some (JArr (JObj choice :: rest))
      /\ choice !! key_message = Some (JObj choice_message)
      /\ choice_message !! key_content = Some (JStr answer))
  /\ fields !! key_model = Some (JStr model)
  /\ ((fields !! key_usage = None /\ tokens = 0%Z)
      \/ (exists usage, fields !! key_usage = Some (JObj usage)
                        /\ default (JInt 0) (usage !! key_total_tokens) = JInt tokens)).

(** The body of a request is usable when it parses to a JSON object. *)
Definition is_json_object (get_json : outcome json) : bool :=
  match get_json with
  | inr (JObj _) => true
  | _ => false
  end.

(** ** Concrete runs *)

Module Run.

Definition api_key : pystr := u8 "gsk_test".
Definition corpus : pystr := u8 "Tap the bell icon to mute notifications.".

Definition request (question : pystr) (history : json) : json :=
  JObj (<[key_question := JStr question]> (<[key_history := history]> ∅)).

Definition hello_reply : json :=
  JObj (<[key_choices :=
            JArr [JObj (<[key_message :=
                            JObj (<[key_content := JStr (u8 "Hello")]> ∅)]> ∅)]]>
       (<[key_model := JStr (u8 "m1")]>
       (<[key_usage := JObj (<[key_total_tokens := JInt 42]> ∅)]> ∅))).

Definition replies (status : Z) (reply : outcome json)
  : post_call -> outcome response :=
  fun _ => inr {| status_code := status; response_json := reply |}.

Definition unreachable : post_call -> outcome response :=
  fun _ => inl (Raised (u8 "Connection timed out")).

End Run.

(** ** The loader and the start of the process *)

(** [load_documentation_from_word(file_path)].  [document path] stands for
    what the [try] body reads of [docx.Document(path)]: the texts of its
    paragraphs in order, or the exception met on the way, which the loader
    logs and replaces by the empty string. *)
Definition load_documentation_from_word
    (document : pystr -> outcome (list pystr)) (file_path : pystr) : pystr :=
  match document file_path with
  | inr paragraphs =>
      join newline (filter (fun text => strip text <> []) paragraphs)
  | inl _ => []
  end.

Definition env_GROQ_API_KEY : pystr := Eval vm_compute in u8 "GROQ_API_KEY".
Definition env_DOCX_PATH : pystr := Eval vm_compute in u8 "DOCX_PATH".
Definition default_docx_path : pystr := u8 "flask_documentation.docx".
Definition key_not_set : pystr :=
  u8 "GROQ_API_KEY environment variable is not set.".

(** [os.getenv("DOCX_PATH", "flask_documentation.docx")] *)
Definition DOCX_PATH (environ : gmap (list N) (list N)) : pystr :=
  default default_docx_path (environ !! env_DOCX_PATH).

(** The module either refuses to load, with a [RuntimeError], or ends with
    its two globals set. *)
Inductive startup :=
| Refused (error : pystr)
| Started (GROQ_API_KEY app_documentation : pystr).

(** Lines 13 to 40, on the environment left by [load_dotenv()]: the key is
    checked first, the documentation is loaded after. *)
Definition start (environ : gmap (list N) (list N))
    (document : pystr -> outcome (list pystr)) : startup :=
  match environ !! env_GROQ_API_KEY with
  | None => Refused key_not_set
  | Some [] => Refused key_not_set
  | Some key =>
      Started key (load_documentation_from_word document (DOCX_PATH environ))
  end.

(** ** Vocabulary of the further statements *)

(** A role that the formatter keeps, once lowercased. *)
Definition recognised (lower : pystr -> pystr) (role : pystr) : Prop :=
  lower role = role_user \/ lower role = role_assistant \/ lower role = role_bot.

(** The exception that one ill-formed turn makes the loop raise: on [get]
    for what is not a dict, on [lower] for a role that is not a string, on
    [strip] for a content that is not a string. *)
Definition turn_error (msg : json) : option exn :=
  match msg with
  | JObj fields =>
      match fields !! key_role with
      | None | Some (JStr _) =>
          match fields !! key_content with
          | None | Some (JStr _) => None
          | Some v => Some (AttributeError (type_of v) "strip")
          end
      | Some v => Some (AttributeError (type_of v) "lower")
      end
  | _ => Some (AttributeError (type_of msg) "get")
  end.

(** The replies from which lines 150 to 157 build a success, and the
    success they build. *)
Inductive completion_shape (result : json) (reply : AssistantResult) : Prop :=
| completion_shape_intro fields choice rest choice_message answer tokens :
    result = JObj fields ->
    fields !! key_choices = Some (JArr (JObj choice :: rest)) ->
    choice !! key_message = Some (JObj choice_message) ->
    choice_message !! key_content = Some answer ->
    ((fields !! key_usage = None /\ tokens = JInt 0)
     \/ (exists usage, fields !! key_usage = Some (JObj usage)
                       /\ tokens = default (JInt 0) (usage !! key_total_tokens))) ->
    reply = Success answer (default JNull (fields !! key_model)) tokens ->
    completion_shape result reply.

(** The six ways through the handler. *)
Inductive run_case (lower : pystr -> pystr) (GROQ_API_KEY app_documentation : pystr)
    (get_json : outcome json) (upstream : post_call -> outcome response)
  : AssistantResult * list post_call -> Prop :=
| run_unusable_body e :
    is_json_object get_json = false ->
    run_case lower GROQ_API_KEY app_documentation get_json upstream
      (Failure (Str e) 500, [])
| run_question_not_str fields v :
    get_json = inr (JObj fields) ->
    fields !! key_question = Some v ->
    (forall s, v <> JStr s) ->
    run_case lower GROQ_API_KEY app_documentation get_json upstream
      (Failure (Str (AttributeError (type_of v) "strip")) 500, [])
| run_no_documentation fields :
    get_json = inr (JObj fields) ->
    (fields !! key_question = None \/ exists s, fields !! key_question = Some (JStr s)) ->
    app_documentation = [] ->
    run_case lower GROQ_API_KEY app_documentation get_json upstream
      (Failure (Literal documentation_missing) 500, [])
| run_blank_question fields :
    get_json = inr (JObj fields) ->
    app_documentation <> [] ->
    blank_question fields = true ->
    run_case lower GROQ_API_KEY app_documentation get_json upstream
      (Failure (Literal missing_question) 400, [])
| run_history_raises fields s e :
    get_json = inr (JObj fields) ->
    app_documentation <> [] ->
    fields !! key_question = Some (JStr s) ->
    strip s <> [] ->
    format_chat_history lower (default (JArr []) (fields !! key_history)) = inl e ->
    run_case lower GROQ_API_KEY app_documentation get_json upstream
      (Failure (Str e) 500, [])
| run_call fields q h :
    get_json = inr (JObj fields) ->
    valid_request lower app_documentation fields q h ->
    run_case lower GROQ_API_KEY app_documentation get_json upstream
      (match complete upstream
               (build_call GROQ_API_KEY (prompt app_documentation h q)) with
       | inr reply => (reply, [build_call GROQ_API_KEY (prompt app_documentation h q)])
       | inl e => (Failure (Str e) 500,
                   [build_call GROQ_API_KEY (prompt app_documentation h q)])
       end).

(** * Properties *)

(** ** Strings *)

Lemma lstrip_blank (s : pystr) : forallb isspace s = true -> lstrip s = [].
Proof.
  induction s as [|c t IH]; simpl; [done|].
  intros H. apply andb_prop in H as [Hc Ht]. rewrite Hc. auto.
Qed.

Lemma lstrip_nil_blank (s : pystr) : lstrip s = [] -> forallb isspace s = true.
Proof.
  induction s as [|c t IH]; simpl; [done|].
  destruct (isspace c); [auto | discriminate].
Qed.

Lemma lstrip_suffix (s : pystr) : exists p, s = p ++ lstrip s /\ forallb isspace p = true.
Proof.
  induction s as [|c t [p [Hp Hb]]]; simpl.
  - by exists [].
  - destruct (isspace c) eqn:Hc.
    + exists (c :: p). simpl. rewrite Hc, Hb. split; [by rewrite <- Hp | done].
    + by exists [].
Qed.

(** [s.strip()] is empty exactly when [s] is empty or all white space. *)
Lemma strip_nil_iff (s : pystr) : strip s = [] <-> forallb isspace s = true.
Proof.
  unfold strip, rstrip. split.
  - intros H.
    assert (Hr : lstrip (rev (lstrip s)) = []).
    { apply (f_equal (@rev N)) in H. by rewrite rev_involutive in H. }
    apply lstrip_nil_blank in Hr.
    destruct (lstrip_suffix s) as [p [Hp Hb]].
    rewrite Hp, forallb_app, Hb. simpl.
    rewrite forallb_forall in Hr. apply forallb_forall.
    intros x Hx. apply Hr. by apply in_rev in Hx.
  - intros H. by rewrite (lstrip_blank s H).
Qed.

(** ** The history formatter *)

Section FormatterFacts.

Variable lower : pystr -> pystr.

Lemma omap_turn_line_cons (t : pystr * pystr) (ts : list (pystr * pystr)) :
  omap (turn_line lower) (t :: ts)
  = match turn_line lower t with
    | Some line => line :: omap (turn_line lower) ts
    | None => omap (turn_line lower) ts
    end.
Proof. reflexivity. Qed.

Lemma format_loop_turns (items : list json) :
  forall turns formatted,
    read_turns items = Some turns ->
    format_loop lower items formatted
    = inr (formatted ++ omap (turn_line lower) turns).
Proof.
  induction items as [|msg rest IH]; intros turns formatted Hr; simpl in Hr.
  - injection Hr as <-. simpl. by rewrite app_nil_r.
  - destruct (read_turn msg) as [[r c]|] eqn:Hm; [|discriminate].
    destruct (read_turns rest) as [ts|] eqn:Hts; [|discriminate].
    injection Hr as <-.
    destruct msg as [| | | | |?|fields]; try discriminate.
    simpl in Hm. unfold read_field in Hm.
    rewrite omap_turn_line_cons. unfold turn_line at 1. cbn [fst snd].
    cbn [format_loop py_get bind ret].
    destruct (fields !! key_role) as [[| | | |sr| |]|]; try discriminate;
      destruct (fields !! key_content) as [[| | | |sc| |]|]; try discriminate;
      injection Hm as <- <-; cbn [py_lower py_strip bind ret];
      repeat case_decide; rewrite (IH ts) by done;
      rewrite <- ?app_assoc; reflexivity.
Qed.

Lemma format_loop_raises (items : list json) :
  forall formatted,
    read_turns items = None ->
    exists e, format_loop lower items formatted = inl e.
Proof.
  induction items as [|msg rest IH]; intros formatted Hr; simpl in Hr;
    [discriminate|].
  destruct (read_turn msg) as [[r c]|] eqn:Hm.
  - destruct (read_turns rest) as [ts|] eqn:Hts; [discriminate|].
    destruct msg as [| | | | |?|fields]; try discriminate.
    simpl in Hm. unfold read_field in Hm.
    cbn [format_loop py_get bind ret].
    destruct (fields !! key_role) as [[| | | |sr| |]|]; try discriminate;
      destruct (fields !! key_content) as [[| | | |sc| |]|]; try discriminate;
      cbn [py_lower py_strip bind ret]; repeat case_decide; by apply IH.
  - destruct msg as [| | | | |?|fields];
      try (eexists; reflexivity).
    simpl in Hm. unfold read_field in Hm.
    cbn [format_loop py_get bind ret].
    destruct (fields !! key_role) as [[| | | |sr| |]|];
      try (eexists; reflexivity);
      destruct (fields !! key_content) as [[| | | |sc| |]|];
      try (eexists; reflexivity); discriminate.
Qed.

(** The formatter raises exactly on the lists that hold an ill-formed
    turn. *)
Lemma format_chat_history_raises (history : json) :
  history_ok history = false ->
  exists e, format_chat_history lower history = inl e.
Proof.
  destruct history as [| | | | |items|]; try discriminate.
  simpl. destruct (read_turns items) eqn:Hr; [discriminate|]. intros _.
  destruct (format_loop_raises items [] Hr) as [e He].
  exists e. by rewrite He.
Qed.

End FormatterFacts.

Example format_two_turns :
  format_chat_history ascii_lower
    (JArr [turn (u8 "USER") (u8 " hi "); turn (u8 "system") (u8 "x");
           turn (u8 "Bot") (u8 "yo")])
  = inr (u8 "User: hi" ++ newline ++ u8 "AI: yo").
Proof. vm_compute. reflexivity. Qed.

Example format_not_a_list :
  format_chat_history ascii_lower (JStr (u8 "user: hi")) = inr [].
Proof. reflexivity. Qed.

(** C1, as stated, fails: on the list holding the number 5 the formatter
    raises [AttributeError] ('int' object has no attribute 'get') instead
    of returning a string. *)
Lemma format_chat_history_raises_on_number :
  format_chat_history ascii_lower (JArr [JInt 5]) = inl (AttributeError Tint "get")
  /\ ~ (exists s, format_chat_history ascii_lower (JArr [JInt 5]) = inr s).
Proof.
  split; [reflexivity|]. intros [s Hs]. discriminate Hs.
Qed.

(** C1, amended: for every history that is not a list, and for every list
    whose elements are all dicts with [role] and [content] each missing or
    a string (whatever the roles), the formatter returns a string and does
    not raise. *)
Theorem format_chat_history_returns (lower : pystr -> pystr) (history : json) :
  history_ok history = true ->
  exists s, format_chat_history lower history = inr s.
Proof.
  destruct history as [| | | | |items|]; try (intros _; by eexists).
  simpl. destruct (read_turns items) as [turns|] eqn:Hr; [|discriminate].
  intros _. rewrite (format_loop_turns lower items turns [] Hr).
  by eexists.
Qed.

Lemma format_chat_history_returns_witness :
  let history := JArr [turn (u8 "User") (u8 "hi"); JObj ∅;
                       turn (u8 "moderator") (u8 "x")] in
  history_ok history = true
  /\ exists s, format_chat_history ascii_lower history = inr s.
Proof.
  intros history. split; [vm_compute; reflexivity|].
  apply (format_chat_history_returns ascii_lower history).
  vm_compute; reflexivity.
Defined.

(** C2, as stated, fails: the content of a turn is not copied unchanged.
    For the single turn of role "user" and content " hi " the formatter
    yields "User: hi", not "User:  hi ". *)
Lemma format_chat_history_strips_content :
  format_chat_history ascii_lower (JArr [turn (u8 "user") (u8 " hi ")])
  = inr (u8 "User: hi")
  /\ format_chat_history ascii_lower (JArr [turn (u8 "user") (u8 " hi ")])
     <> inr (join newline (omap (turn_line_spec ascii_lower) [(u8 "user", u8 " hi ")])).
Proof.
  split; [vm_compute; reflexivity|].
  vm_compute. intros H. discriminate H.
Qed.

(** C2, amended: for every list of well-formed turns the formatter
    lowercases each role, maps "user" to the line "User: " followed by the
    content stripped of leading and trailing white space, maps "assistant"
    and "bot" to "AI: " followed by the stripped content, drops every other
    turn, and joins the lines with newlines in the order of the input. *)
Theorem format_chat_history_lines (lower : pystr -> pystr)
    (items : list json) (turns : list (pystr * pystr)) :
  read_turns items = Some turns ->
  format_chat_history lower (JArr items)
  = inr (join newline (omap (turn_line lower) turns)).
Proof.
  intros Hr. simpl. by rewrite (format_loop_turns lower items turns [] Hr).
Qed.

Lemma format_chat_history_lines_witness :
  format_chat_history ascii_lower
    (JArr [turn (u8 "User") (u8 " hi "); turn (u8 "tool") (u8 "x");
           turn (u8 "BOT") (u8 "hello")])
  = inr (u8 "User: hi" ++ newline ++ u8 "AI: hello").
Proof.
  rewrite (format_chat_history_lines ascii_lower _
             [(u8 "User", u8 " hi "); (u8 "tool", u8 "x"); (u8 "BOT", u8 "hello")]).
  - vm_compute. reflexivity.
  - vm_compute. reflexivity.
Defined.

(** ** The handler *)

Section HandlerFacts.

Variable lower : pystr -> pystr.
Variable GROQ_API_KEY : pystr.
Variable upstream : post_call -> outcome response.

(** What is not a JSON object has no method [get]: the first statement of
    the [try] body raises, and so does [get_json] when it fails. *)
Lemma ai_assistant_unusable_body (app_documentation : pystr)
    (get_json : outcome json) :
  is_json_object get_json = false ->
  exists e,
    ai_assistant lower GROQ_API_KEY app_documentation get_json upstream
    = (Failure (Str e) 500, []).
Proof.
  intros H. destruct get_json as [e|[| | | | | |fields]];
    try discriminate; eexists; reflexivity.
Qed.

(** Without documentation every request is answered by a failure of
    status 500, before any call to the endpoint. *)
Lemma ai_assistant_no_documentation (get_json : outcome json) :
  exists error,
    ai_assistant lower GROQ_API_KEY [] get_json upstream
    = (Failure error 500, []).
Proof.
  destruct (is_json_object get_json) eqn:Hobj.
  - destruct get_json as [e|[| | | | | |fields]]; try discriminate.
    unfold ai_assistant, ai_assistant_try, mbind, lift, mret, py_get.
    destruct (fields !! key_question) as [[| | | |s| |]|];
      try (eexists; reflexivity);
      destruct (fields !! key_history); eexists; reflexivity.
  - destruct (ai_assistant_unusable_body [] get_json Hobj) as [e He].
    by exists (Str e).
Qed.

(** A valid request reaches the endpoint exactly once, with the prompt
    built from the documentation, the formatted history and the stripped
    question; the reply is what the exchange gives. *)
Lemma ai_assistant_valid_run (app_documentation : pystr)
    (fields : gmap (list N) json) (q h : pystr) :
  valid_request lower app_documentation fields q h ->
  let call := build_call GROQ_API_KEY (prompt app_documentation h q) in
  ai_assistant lower GROQ_API_KEY app_documentation (inr (JObj fields)) upstream
  = match complete upstream call with
    | inr reply => (reply, [call])
    | inl e => (Failure (Str e) 500, [call])
    end.
Proof.
  intros (Hdoc & (s & Hs & Hq) & Hne & Hh) call.
  unfold ai_assistant, ai_assistant_try, mbind, lift, mret, py_get.
  rewrite Hs. cbn [py_strip ret]. rewrite Hq.
  assert (Hraw : (match fields !! key_history with
                  | Some x => ret x
                  | None => ret (JArr [])
                  end) = inr (default (JArr []) (fields !! key_history))).
  { by destruct (fields !! key_history). }
  rewrite Hraw.
  destruct app_documentation as [|d ds]; [done|].
  destruct q as [|c cs]; [done|].
  rewrite Hh. unfold requests_post, complete, bind. fold call. simpl.
  destruct (upstream call) as [e|r]; [reflexivity|].
  destruct (raise_for_status r) as [e|[]]; [reflexivity|].
  destruct (response_json r) as [e|result]; [reflexivity|].
  destruct (read_completion result); reflexivity.
Qed.

End HandlerFacts.

(** C3: when the documentation is the empty string, every request whose body
    is a JSON object is answered by a failure of status 500, whatever the
    question holds, and the endpoint is not called. *)
Theorem empty_corpus_fails (lower : pystr -> pystr) (GROQ_API_KEY : pystr)
    (fields : gmap (list N) json) (upstream : post_call -> outcome response) :
  exists error,
    ai_assistant lower GROQ_API_KEY [] (inr (JObj fields)) upstream
    = (Failure error 500, []).
Proof. apply ai_assistant_no_documentation. Qed.

Example empty_corpus_empty_question :
  ai_assistant ascii_lower Run.api_key [] (inr (Run.request [] (JArr [])))
    (Run.replies 200 (inr Run.hello_reply))
  = (Failure (Literal documentation_missing) 500, []).
Proof. vm_compute. reflexivity. Qed.

(** C4: with documentation loaded, a request whose question is missing,
    empty or all white space is answered by the failure of status 400, and
    the endpoint is not called. *)
Theorem blank_question_fails (lower : pystr -> pystr) (GROQ_API_KEY : pystr)
    (app_documentation : pystr) (fields : gmap (list N) json)
    (upstream : post_call -> outcome response) :
  app_documentation <> [] ->
  blank_question fields = true ->
  ai_assistant lower GROQ_API_KEY app_documentation (inr (JObj fields)) upstream
  = (Failure (Literal missing_question) 400, []).
Proof.
  intros Hdoc Hblank. unfold blank_question in Hblank.
  unfold ai_assistant, ai_assistant_try, mbind, lift, mret, py_get.
  destruct app_documentation as [|d ds]; [done|].
  destruct (fields !! key_question) as [[| | | |s| |]|]; try discriminate;
    cbn [py_strip ret].
  - apply strip_nil_iff in Hblank. rewrite Hblank.
    by destruct (fields !! key_history).
  - by destruct (fields !! key_history).
Qed.

Lemma blank_question_fails_witness :
  Run.corpus <> []
  /\ blank_question (<[key_question := JStr (u8 "   ")]> ∅) = true
  /\ ai_assistant ascii_lower Run.api_key Run.corpus
       (inr (JObj (<[key_question := JStr (u8 "   ")]> ∅)))
       (Run.replies 200 (inr Run.hello_reply))
     = (Failure (Literal missing_question) 400, []).
Proof.
  split; [discriminate|]. split; [vm_compute; reflexivity|].
  apply (blank_question_fails ascii_lower Run.api_key Run.corpus
           (<[key_question := JStr (u8 "   ")]> ∅)
           (Run.replies 200 (inr Run.hello_reply))).
  - discriminate.
  - vm_compute; reflexivity.
Defined.

(** C5: for a valid request, an exception raised by the call to the
    endpoint, by the status check, by the parsing of the reply or by the
    reading of its fields is caught: the handler answers with the failure of
    status 500 whose message is [str(e)], after the one call it made. *)
Theorem upstream_failure_caught (lower : pystr -> pystr) (GROQ_API_KEY : pystr)
    (app_documentation : pystr) (fields : gmap (list N) json) (q h : pystr)
    (upstream : post_call -> outcome response) (e : exn) :
  valid_request lower app_documentation fields q h ->
  upstream_failure upstream
    (build_call GROQ_API_KEY (prompt app_documentation h q)) e ->
  ai_assistant lower GROQ_API_KEY app_documentation (inr (JObj fields)) upstream
  = (Failure (Str e) 500,
     [build_call GROQ_API_KEY (prompt app_documentation h q)]).
Proof.
  intros Hvalid Hfail.
  rewrite (ai_assistant_valid_run lower GROQ_API_KEY upstream
             app_documentation fields q h Hvalid).
  unfold complete, bind.
  destruct Hfail as [Hp | r Hp Hs | r Hp Hs Hj | r result Hp Hs Hj Hr];
    rewrite Hp; try rewrite Hs; try rewrite Hj; try rewrite Hr; reflexivity.
Qed.

Lemma valid_hello_request :
  valid_request ascii_lower Run.corpus
    (<[key_question := JStr (u8 " How do I mute? ")]> ∅)
    (u8 "How do I mute?") [].
Proof.
  split; [discriminate|]. split.
  - exists (u8 " How do I mute? "). split; vm_compute; reflexivity.
  - split; [discriminate | vm_compute; reflexivity].
Defined.

Lemma upstream_failure_caught_witness :
  ai_assistant ascii_lower Run.api_key Run.corpus
    (inr (JObj (<[key_question := JStr (u8 " How do I mute? ")]> ∅)))
    (Run.replies 500 (inr Run.hello_reply))
  = (Failure (Str (HTTPError 500)) 500,
     [build_call Run.api_key (prompt Run.corpus [] (u8 "How do I mute?"))]).
Proof.
  apply (upstream_failure_caught ascii_lower Run.api_key Run.corpus
           (<[key_question := JStr (u8 " How do I mute? ")]> ∅)
           (u8 "How do I mute?") [] (Run.replies 500 (inr Run.hello_reply))
           (HTTPError 500) valid_hello_request).
  apply (status_raises _ _ _
           {| status_code := 500; response_json := inr Run.hello_reply |});
    reflexivity.
Defined.

Example network_error_caught :
  fst (ai_assistant ascii_lower Run.api_key Run.corpus
         (inr (Run.request (u8 "How do I mute?") (JArr []))) Run.unreachable)
  = Failure (Str (Raised (u8 "Connection timed out"))) 500.
Proof. vm_compute. reflexivity. Qed.

Example reply_without_choices_caught :
  fst (ai_assistant ascii_lower Run.api_key Run.corpus
         (inr (Run.request (u8 "How do I mute?") (JArr [])))
         (Run.replies 200 (inr (JObj ∅))))
  = Failure (Str (KeyError (JStr key_choices))) 500.
Proof. vm_compute. reflexivity. Qed.

(** ** Reading a well-formed reply *)

Lemma first_item (x : json) (rest : list json) :
  py_getitem_int (JArr (x :: rest)) 0 = inr x.
Proof. reflexivity. Qed.

Lemma read_completion_well_formed (fields : gmap (list N) json)
    (answer model : pystr) (tokens : Z) :
  well_formed_reply fields answer model tokens ->
  read_completion (JObj fields)
  = inr (Success (JStr answer) (JStr model) (JInt tokens)).
Proof.
  intros ((choice & rest & cm & Hc & Hm & Ha) & Hmodel & Husage).
  unfold read_completion, py_getitem, py_get, bind, ret.
  rewrite Hc, (first_item (JObj choice) rest), Hm, Ha, Hmodel.
  destruct Husage as [[Hu ->] | (usage & Hu & Ht)]; rewrite Hu.
  - by rewrite lookup_empty.
  - destruct (usage !! key_total_tokens); simpl in Ht; by rewrite Ht.
Qed.

(** C6: for a valid request whose call to the endpoint returns, passes the
    status check and parses to a well-formed reply, the handler answers
    with the success made of the content of the first choice, the model of
    the reply and its [usage.total_tokens], 0 when [usage] is missing. *)
Theorem well_formed_reply_succeeds (lower : pystr -> pystr)
    (GROQ_API_KEY app_documentation : pystr) (fields : gmap (list N) json)
    (q h : pystr) (upstream : post_call -> outcome response) (r : response)
    (reply : gmap (list N) json) (answer model : pystr) (tokens : Z) :
  valid_request lower app_documentation fields q h ->
  upstream (build_call GROQ_API_KEY (prompt app_documentation h q)) = inr r ->
  raise_for_status r = inr tt ->
  response_json r = inr (JObj reply) ->
  well_formed_reply reply answer model tokens ->
  ai_assistant lower GROQ_API_KEY app_documentation (inr (JObj fields)) upstream
  = (Success (JStr answer) (JStr model) (JInt tokens),
     [build_call GROQ_API_KEY (prompt app_documentation h q)]).
Proof.
  intros Hvalid Hp Hs Hj Hw.
  rewrite (ai_assistant_valid_run lower GROQ_API_KEY upstream
             app_documentation fields q h Hvalid).
  unfold complete, bind. rewrite Hp, Hs, Hj.
  by rewrite (read_completion_well_formed reply answer model tokens Hw).
Qed.

Lemma well_formed_reply_succeeds_witness :
  ai_assistant ascii_lower Run.api_key Run.corpus
    (inr (JObj (<[key_question := JStr (u8 " How do I mute? ")]> ∅)))
    (Run.replies 200 (inr Run.hello_reply))
  = (Success (JStr (u8 "Hello")) (JStr (u8 "m1")) (JInt 42),
     [build_call Run.api_key (prompt Run.corpus [] (u8 "How do I mute?"))]).
Proof.
  apply (well_formed_reply_succeeds ascii_lower Run.api_key Run.corpus
           (<[key_question := JStr (u8 " How do I mute? ")]> ∅)
           (u8 "How do I mute?") [] (Run.replies 200 (inr Run.hello_reply))
           {| status_code := 200; response_json := inr Run.hello_reply |}
           (<[key_choices :=
                JArr [JObj (<[key_message :=
                                JObj (<[key_content := JStr (u8 "Hello")]> ∅)]> ∅)]]>
            (<[key_model := JStr (u8 "m1")]>
            (<[key_usage := JObj (<[key_total_tokens := JInt 42]> ∅)]> ∅)))
           (u8 "Hello") (u8 "m1") 42 valid_hello_request);
    try reflexivity.
  split.
  - exists (<[key_message := JObj (<[key_content := JStr (u8 "Hello")]> ∅)]> ∅), [],
      (<[key_content := JStr (u8 "Hello")]> ∅).
    repeat split; vm_compute; reflexivity.
  - split; [vm_compute; reflexivity|].
    right. exists (<[key_total_tokens := JInt 42]> ∅).
    split; vm_compute; reflexivity.
Defined.

Example reply_without_usage :
  fst (ai_assistant ascii_lower Run.api_key Run.corpus
         (inr (Run.request (u8 "How do I mute?") (JArr [])))
         (Run.replies 200
            (inr (JObj (<[key_choices :=
                            JArr [JObj (<[key_message :=
                                            JObj (<[key_content := JStr (u8 "Hello")]> ∅)]> ∅)]]>
                        (<[key_model := JStr (u8 "m1")]> ∅))))))
  = Success (JStr (u8 "Hello")) (JStr (u8 "m1")) (JInt 0).
Proof. vm_compute. reflexivity. Qed.

(** C7: whatever the request and whatever the endpoint does, a success
    reply means that the documentation was not empty. *)
Theorem success_needs_corpus (lower : pystr -> pystr)
    (GROQ_API_KEY app_documentation : pystr) (get_json : outcome json)
    (upstream : post_call -> outcome response) (answer model tokens : json) :
  fst (ai_assistant lower GROQ_API_KEY app_documentation get_json upstream)
  = Success answer model tokens ->
  app_documentation <> [].
Proof.
  intros Hs ->.
  destruct (ai_assistant_no_documentation lower GROQ_API_KEY upstream get_json)
    as [error He].
  rewrite He in Hs. discriminate Hs.
Qed.

Lemma success_needs_corpus_witness : Run.corpus <> [].
Proof.
  apply (success_needs_corpus ascii_lower Run.api_key Run.corpus
           (inr (Run.request (u8 "How do I mute?") (JArr [])))
           (Run.replies 200 (inr Run.hello_reply))
           (JStr (u8 "Hello")) (JStr (u8 "m1")) (JInt 42)).
  vm_compute. reflexivity.
Defined.

(** ** The prompt *)

(** Every line the formatter builds starts with the U of "User: " or the A
    of "AI: ". *)
Lemma turn_lines_head (lower : pystr -> pystr) (turns : list (pystr * pystr)) :
  Forall (fun line => exists rest, line = 85 :: rest \/ line = 65 :: rest)
    (omap (turn_line lower) turns).
Proof.
  induction turns as [|t ts IH]; [constructor|].
  change (omap (turn_line lower) (t :: ts))
    with (match turn_line lower t with
          | Some line => line :: omap (turn_line lower) ts
          | None => omap (turn_line lower) ts
          end).
  unfold turn_line at 1. unfold User_prefix, AI_prefix.
  repeat case_decide; try done; constructor; try done; eexists; simpl; eauto.
Qed.

Lemma join_head (lines : list pystr) :
  Forall (fun line => exists rest, line = 85 :: rest \/ line = 65 :: rest) lines ->
  join newline lines = []
  \/ exists rest, join newline lines = 85 :: rest \/ join newline lines = 65 :: rest.
Proof.
  intros H. destruct H as [|x l [rest [-> | ->]] Hl]; [by left| |];
    right; destruct l; simpl; eauto.
Qed.

(** A formatted history is never the placeholder text. *)
Lemma format_chat_history_not_placeholder (lower : pystr -> pystr)
    (history : json) (h : pystr) :
  format_chat_history lower history = inr h -> h <> no_prior_conversation.
Proof.
  intros Hh. destruct (history_ok history) eqn:Hok.
  - destruct history as [| | | | |items|];
      try (injection Hh as <-; discriminate).
    simpl in Hok. destruct (read_turns items) as [turns|] eqn:Hr; [|discriminate].
    unfold format_chat_history in Hh.
    rewrite (format_loop_turns lower items turns [] Hr) in Hh.
    injection Hh as <-.
    destruct (join_head _ (turn_lines_head lower turns))
      as [-> | [rest [-> | ->]]]; discriminate.
  - destruct (format_chat_history_raises lower history Hok) as [e He].
    rewrite He in Hh. discriminate Hh.
Qed.

Lemma user_prompts_build_call (GROQ_API_KEY user_prompt : pystr) :
  user_prompts [build_call GROQ_API_KEY user_prompt] = [user_prompt].
Proof. reflexivity. Qed.

(** The one call of a valid request carries the prompt of its
    documentation, formatted history and stripped question. *)
Lemma valid_request_prompt (lower : pystr -> pystr)
    (GROQ_API_KEY app_documentation : pystr) (fields : gmap (list N) json)
    (q h : pystr) (upstream : post_call -> outcome response) :
  valid_request lower app_documentation fields q h ->
  user_prompts
    (snd (ai_assistant lower GROQ_API_KEY app_documentation
            (inr (JObj fields)) upstream))
  = [prompt app_documentation h q].
Proof.
  intros Hvalid.
  rewrite (ai_assistant_valid_run lower GROQ_API_KEY upstream
             app_documentation fields q h Hvalid).
  destruct (complete upstream _); apply user_prompts_build_call.
Qed.

(** C8: the prompt depends on the documentation, the formatted history and
    the stripped question only.  Two valid requests that agree on these
    three send the same prompt, which is [prompt] of the three, whatever
    else differs: the raw history, the other fields of the body, the key,
    the behaviour of the endpoint. *)
Theorem prompt_deterministic (lower1 lower2 : pystr -> pystr)
    (key1 key2 app_documentation : pystr)
    (fields1 fields2 : gmap (list N) json) (q h : pystr)
    (upstream1 upstream2 : post_call -> outcome response) :
  valid_request lower1 app_documentation fields1 q h ->
  valid_request lower2 app_documentation fields2 q h ->
  user_prompts
    (snd (ai_assistant lower1 key1 app_documentation (inr (JObj fields1)) upstream1))
  = user_prompts
      (snd (ai_assistant lower2 key2 app_documentation (inr (JObj fields2)) upstream2))
  /\ user_prompts
       (snd (ai_assistant lower1 key1 app_documentation (inr (JObj fields1)) upstream1))
     = [prompt app_documentation h q].
Proof.
  intros H1 H2.
  rewrite (valid_request_prompt lower1 key1 app_documentation fields1 q h upstream1 H1).
  by rewrite (valid_request_prompt lower2 key2 app_documentation fields2 q h upstream2 H2).
Qed.

Lemma valid_request_with_history :
  valid_request ascii_lower Run.corpus
    (<[key_question := JStr (u8 "And on the web?")]>
       (<[key_history := JArr [turn (u8 "user") (u8 "How do I mute?")]]> ∅))
    (u8 "And on the web?") (u8 "User: How do I mute?").
Proof.
  split; [discriminate|]. split.
  - exists (u8 "And on the web?"). split; vm_compute; reflexivity.
  - split; [discriminate | vm_compute; reflexivity].
Defined.

Lemma valid_request_with_dropped_turn :
  valid_request ascii_lower Run.corpus
    (<[key_question := JStr (u8 "  And on the web?")]>
       (<[key_history := JArr [turn (u8 "system") (u8 "be brief");
                               turn (u8 "USER") (u8 "How do I mute? ")]]> ∅))
    (u8 "And on the web?") (u8 "User: How do I mute?").
Proof.
  split; [discriminate|]. split.
  - exists (u8 "  And on the web?"). split; vm_compute; reflexivity.
  - split; [discriminate | vm_compute; reflexivity].
Defined.

Lemma prompt_deterministic_witness :
  user_prompts
    (snd (ai_assistant ascii_lower Run.api_key Run.corpus
            (inr (JObj (<[key_question := JStr (u8 "And on the web?")]>
                          (<[key_history :=
                               JArr [turn (u8 "user") (u8 "How do I mute?")]]> ∅))))
            (Run.replies 200 (inr Run.hello_reply))))
  = user_prompts
      (snd (ai_assistant ascii_lower (u8 "gsk_other") Run.corpus
              (inr (JObj (<[key_question := JStr (u8 "  And on the web?")]>
                            (<[key_history :=
                                 JArr [turn (u8 "system") (u8 "be brief");
                                       turn (u8 "USER") (u8 "How do I mute? ")]]> ∅))))
              Run.unreachable)).
Proof.
  apply (prompt_deterministic ascii_lower ascii_lower Run.api_key (u8 "gsk_other")
           Run.corpus _ _ (u8 "And on the web?") (u8 "User: How do I mute?")
           (Run.replies 200 (inr Run.hello_reply)) Run.unreachable
           valid_request_with_history valid_request_with_dropped_turn).
Defined.

(** C9: for a valid request the prompt is the fixed text around three
    holes, and the hole under the heading "Conversation History:" holds the
    placeholder "No prior conversation." exactly when the formatted history
    is the empty string, and the formatted history itself, unchanged,
    otherwise. *)
Theorem history_section_of_prompt (lower : pystr -> pystr)
    (GROQ_API_KEY app_documentation : pystr) (fields : gmap (list N) json)
    (q h : pystr) (upstream : post_call -> outcome response) :
  valid_request lower app_documentation fields q h ->
  user_prompts
    (snd (ai_assistant lower GROQ_API_KEY app_documentation
            (inr (JObj fields)) upstream))
  = [prompt_preamble ++ app_documentation
     ++ history_heading
     ++ match h with
        | [] => u8 "No prior conversation."
        | _ :: _ => h
        end
     ++ question_heading ++ q ++ instructions]
  /\ (match h with
      | [] => u8 "No prior conversation."
      | _ :: _ => h
      end = u8 "No prior conversation." <-> h = [])
  /\ (h <> [] ->
      match h with
      | [] => u8 "No prior conversation."
      | _ :: _ => h
      end = h)
  /\ (exists rule, history_heading = rule ++ u8 "Conversation History:" ++ newline).
Proof.
  intros Hvalid. split; [|split; [|split]].
  - rewrite (valid_request_prompt lower GROQ_API_KEY app_documentation fields
               q h upstream Hvalid).
    unfold prompt, history_section. by destruct h.
  - destruct Hvalid as (_ & _ & _ & Hh).
    apply format_chat_history_not_placeholder in Hh.
    destruct h as [|c cs]; split; intros H.
    + reflexivity.
    + reflexivity.
    + contradiction.
    + discriminate H.
  - destruct h as [|c cs]; [intros H; contradiction | reflexivity].
  - exists (newline ++ newline ++ u8 "---" ++ newline ++ newline ++ [35; 35; 35; 32; 129504; 32]).
    vm_compute. reflexivity.
Qed.

Lemma history_section_of_prompt_witness :
  (user_prompts
     (snd (ai_assistant ascii_lower Run.api_key Run.corpus
             (inr (JObj (<[key_question := JStr (u8 " How do I mute? ")]> ∅)))
             Run.unreachable))
   = [prompt_preamble ++ Run.corpus
      ++ history_heading ++ u8 "No prior conversation."
      ++ question_heading ++ u8 "How do I mute?" ++ instructions])
  /\ (user_prompts
        (snd (ai_assistant ascii_lower Run.api_key Run.corpus
                (inr (JObj (<[key_question := JStr (u8 "And on the web?")]>
                              (<[key_history :=
                                   JArr [turn (u8 "user") (u8 "How do I mute?")]]> ∅))))
                (Run.replies 200 (inr Run.hello_reply))))
      = [prompt_preamble ++ Run.corpus
         ++ history_heading ++ u8 "User: How do I mute?"
         ++ question_heading ++ u8 "And on the web?" ++ instructions])
  /\ u8 "User: How do I mute?" <> u8 "No prior conversation.".
Proof.
  pose proof (history_section_of_prompt ascii_lower Run.api_key Run.corpus
                (<[key_question := JStr (u8 " How do I mute? ")]> ∅)
                (u8 "How do I mute?") [] Run.unreachable valid_hello_request)
    as [Hempty _].
  pose proof (history_section_of_prompt ascii_lower Run.api_key Run.corpus
                (<[key_question := JStr (u8 "And on the web?")]>
                   (<[key_history :=
                        JArr [turn (u8 "user") (u8 "How do I mute?")]]> ∅))
                (u8 "And on the web?") (u8 "User: How do I mute?")
                (Run.replies 200 (inr Run.hello_reply))
                valid_request_with_history)
    as (Hfull & Hiff & _).
  split; [exact Hempty|]. split; [exact Hfull|].
  intros H. apply Hiff in H. discriminate H.
Defined.

Example prompt_with_history :
  history_section (u8 "User: How do I mute?") = u8 "User: How do I mute?".
Proof. vm_compute. reflexivity. Qed.

(** A history that the formatter rejects turns an otherwise valid request
    into a failure, before any call to the endpoint. *)
Example ill_formed_history_fails :
  ai_assistant ascii_lower Run.api_key Run.corpus
    (inr (Run.request (u8 "How do I mute?") (JArr [JInt 5])))
    (Run.replies 200 (inr Run.hello_reply))
  = (Failure (Str (AttributeError Tint "get")) 500, []).
Proof. vm_compute. reflexivity. Qed.

(** C10: a request whose body is absent, is not valid JSON or is not a
    JSON object is answered by a failure of status 500 carrying [str(e)] of
    the exception met while reading the body, not by the failure of status
    400 for a missing question; the endpoint is not called. *)
Theorem unusable_body_fails (lower : pystr -> pystr)
    (GROQ_API_KEY app_documentation : pystr) (get_json : outcome json)
    (upstream : post_call -> outcome response) :
  is_json_object get_json = false ->
  (exists e,
      ai_assistant lower GROQ_API_KEY app_documentation get_json upstream
      = (Failure (Str e) 500, []))
  /\ fst (ai_assistant lower GROQ_API_KEY app_documentation get_json upstream)
     <> Failure (Literal missing_question) 400.
Proof.
  intros H.
  destruct (ai_assistant_unusable_body lower GROQ_API_KEY upstream
              app_documentation get_json H) as [e He].
  split; [by exists e|]. rewrite He. discriminate.
Qed.

Lemma unusable_body_fails_witness :
  fst (ai_assistant ascii_lower Run.api_key Run.corpus
         (inr (JArr [JStr (u8 "How do I mute?")]))
         (Run.replies 200 (inr Run.hello_reply)))
  <> Failure (Literal missing_question) 400.
Proof.
  apply (unusable_body_fails ascii_lower Run.api_key Run.corpus
           (inr (JArr [JStr (u8 "How do I mute?")]))
           (Run.replies 200 (inr Run.hello_reply))).
  reflexivity.
Defined.

Example invalid_json_body :
  ai_assistant ascii_lower Run.api_key Run.corpus
    (inl (Raised (u8 "400 Bad Request: Failed to decode JSON object")))
    (Run.replies 200 (inr Run.hello_reply))
  = (Failure (Str (Raised (u8 "400 Bad Request: Failed to decode JSON object"))) 500,
     []).
Proof. reflexivity. Qed.

Example null_body :
  ai_assistant ascii_lower Run.api_key Run.corpus (inr JNull)
    (Run.replies 200 (inr Run.hello_reply))
  = (Failure (Str (AttributeError NoneType "get")) 500, []).
Proof. reflexivity. Qed.

(** * Further properties *)

(** ** Stripping *)

Lemma lstrip_head (s : pystr) (c : N) (t : pystr) :
  lstrip s = c :: t -> isspace c = false.
Proof.
  induction s as [|a s IH]; simpl; [discriminate|].
  destruct (isspace a) eqn:Ha; [exact IH|].
  intros H. injection H as <- _. exact Ha.
Qed.

(** [rstrip] removes a suffix of white space. *)
Lemma rstrip_prefix (s : pystr) :
  exists p, s = rstrip s ++ p /\ forallb isspace p = true.
Proof.
  unfold rstrip. destruct (lstrip_suffix (rev s)) as [p [Hp Hb]].
  exists (rev p). split.
  - rewrite <- rev_app_distr, <- Hp. by rewrite rev_involutive.
  - apply forallb_forall. intros x Hx. apply in_rev in Hx.
    rewrite forallb_forall in Hb. by apply Hb.
Qed.

Lemma strip_head (s : pystr) (c : N) (t : pystr) :
  strip s = c :: t -> isspace c = false.
Proof.
  unfold strip. intros H.
  destruct (rstrip_prefix (lstrip s)) as [p [Hp _]].
  rewrite H in Hp. simpl in Hp. by apply (lstrip_head s c (t ++ p)).
Qed.

Lemma strip_last (s : pystr) (c : N) :
  last (strip s) = Some c -> isspace c = false.
Proof.
  unfold strip, rstrip.
  destruct (lstrip (rev (lstrip s))) as [|a t] eqn:H; [discriminate|].
  change (rev (a :: t)) with (rev t ++ [a]). rewrite last_snoc.
  intros Hc. injection Hc as <-. by apply (lstrip_head _ _ _ H).
Qed.

(** ** More on the history formatter *)

Lemma read_turns_app (l1 l2 : list json) (t1 t2 : list (pystr * pystr)) :
  read_turns l1 = Some t1 -> read_turns l2 = Some t2 ->
  read_turns (l1 ++ l2) = Some (t1 ++ t2).
Proof.
  revert t1. induction l1 as [|msg rest IH]; intros t1 H1 H2; simpl in *.
  - by injection H1 as <-.
  - destruct (read_turn msg) as [t|]; [|discriminate].
    destruct (read_turns rest) as [ts|]; [|discriminate].
    injection H1 as <-. by rewrite (IH ts eq_refl H2).
Qed.

(** A history on which the formatter returns is a list of well-formed
    turns, or is not a list. *)
Lemma format_chat_history_list_inv (lower : pystr -> pystr)
    (items : list json) (h : pystr) :
  format_chat_history lower (JArr items) = inr h ->
  exists turns,
    read_turns items = Some turns
    /\ h = join newline (omap (turn_line lower) turns).
Proof.
  intros Hh. destruct (read_turns items) as [turns|] eqn:Hr.
  - exists turns. split; [done|].
    unfold format_chat_history in Hh.
    rewrite (format_loop_turns lower items turns [] Hr) in Hh.
    by injection Hh as <-.
  - destruct (format_loop_raises lower items [] Hr) as [e He].
    unfold format_chat_history in Hh. rewrite He in Hh. discriminate Hh.
Qed.

Lemma join_nil_iff (lines : list pystr) :
  Forall (fun line => line <> []) lines ->
  join newline lines = [] <-> lines = [].
Proof.
  intros H. split; [|by intros ->].
  destruct H as [|x l Hx Hl]; [done|].
  destruct l; simpl; intros Hj; [done|].
  by destruct x.
Qed.

Lemma join_app (a b : list pystr) :
  a <> [] -> b <> [] ->
  join newline (a ++ b) = join newline a ++ newline ++ join newline b.
Proof.
  intros Ha Hb. induction a as [|x a IH]; [done|].
  destruct a as [|y a].
  - simpl. by destruct b.
  - change (join newline ((x :: y :: a) ++ b))
      with (x ++ newline ++ join newline ((y :: a) ++ b)).
    rewrite IH by done.
    change (join newline (x :: y :: a)) with (x ++ newline ++ join newline (y :: a)).
    by rewrite <- !app_assoc.
Qed.

Lemma turn_lines_nonempty (lower : pystr -> pystr) (turns : list (pystr * pystr)) :
  Forall (fun line => line <> []) (omap (turn_line lower) turns).
Proof.
  eapply Forall_impl; [apply turn_lines_head|].
  intros line [rest [-> | ->]]; discriminate.
Qed.

Lemma turn_line_none_iff (lower : pystr -> pystr) (t : pystr * pystr) :
  turn_line lower t = None <-> ~ recognised lower t.1.
Proof.
  unfold turn_line, recognised. repeat case_decide; split; try done; tauto.
Qed.

Lemma omap_nil_iff {A B} (f : A -> option B) (l : list A) :
  omap f l = [] <-> Forall (fun x => f x = None) l.
Proof.
  induction l as [|x l IH]; [by split; [constructor|]|].
  change (omap f (x :: l))
    with (match f x with Some y => y :: omap f l | None => omap f l end).
  destruct (f x) as [y|] eqn:Hx; split.
  - discriminate.
  - intros H. inversion H; congruence.
  - intros H. constructor; [done|]. by apply IH.
  - intros H. inversion H. by apply IH.
Qed.

Lemma format_loop_after_turns (lower : pystr -> pystr) (good : list json) :
  forall turns later formatted,
    read_turns good = Some turns ->
    format_loop lower (good ++ later) formatted
    = format_loop lower later (formatted ++ omap (turn_line lower) turns).
Proof.
  induction good as [|msg rest IH]; intros turns later formatted Hr; simpl in Hr.
  - injection Hr as <-. simpl. by rewrite app_nil_r.
  - destruct (read_turn msg) as [[r c]|] eqn:Hm; [|discriminate].
    destruct (read_turns rest) as [ts|] eqn:Hts; [|discriminate].
    injection Hr as <-.
    destruct msg as [| | | | |?|fields]; try discriminate.
    simpl in Hm. unfold read_field in Hm.
    rewrite omap_turn_line_cons. unfold turn_line at 1. cbn [fst snd].
    change ((JObj fields :: rest) ++ later) with (JObj fields :: (rest ++ later)).
    cbn [format_loop py_get bind ret].
    destruct (fields !! key_role) as [[| | | |sr| |]|]; try discriminate;
      destruct (fields !! key_content) as [[| | | |sc| |]|]; try discriminate;
      injection Hm as <- <-; cbn [py_lower py_strip bind ret];
      repeat case_decide; rewrite (IH ts) by done;
      rewrite <- ?app_assoc; reflexivity.
Qed.

Lemma format_loop_turn_error (lower : pystr -> pystr) (bad : json) (e : exn)
    (later : list json) (formatted : list pystr) :
  turn_error bad = Some e ->
  format_loop lower (bad :: later) formatted = inl e.
Proof.
  intros He. destruct bad as [| | | | | |fields]; simpl in He;
    try (injection He as <-; reflexivity).
  cbn [format_loop py_get bind ret].
  destruct (fields !! key_role) as [[| | | |sr| |]|];
    try (injection He as <-; reflexivity);
    destruct (fields !! key_content) as [[| | | |sc| |]|];
    try discriminate; injection He as <-; reflexivity.
Qed.

(** X1: the formatter raises at the first ill-formed turn, with the
    exception of that turn: [AttributeError] on [get] for an element that is
    not a dict, on [lower] for a role that is not a string, on [strip] for a
    content that is not a string.  This holds whatever the role of the turn
    is and whatever follows it. *)
Theorem format_chat_history_first_error (lower : pystr -> pystr)
    (good : list json) (turns : list (pystr * pystr)) (bad : json) (e : exn)
    (later : list json) :
  read_turns good = Some turns ->
  turn_error bad = Some e ->
  format_chat_history lower (JArr (good ++ bad :: later)) = inl e.
Proof.
  intros Hg He. unfold format_chat_history.
  rewrite (format_loop_after_turns lower good turns (bad :: later) [] Hg).
  by rewrite (format_loop_turn_error lower bad e later _ He).
Qed.

Lemma format_chat_history_first_error_witness :
  format_chat_history ascii_lower
    (JArr ([turn (u8 "user") (u8 "hi")]
           ++ JObj (<[key_role := JStr (u8 "system")]>
                      (<[key_content := JNull]> ∅))
           :: [JInt 5]))
  = inl (AttributeError NoneType "strip").
Proof.
  apply (format_chat_history_first_error ascii_lower
           [turn (u8 "user") (u8 "hi")] [(u8 "user", u8 "hi")]).
  - vm_compute. reflexivity.
  - vm_compute. reflexivity.
Defined.

(** X2: formatting is compositional.  When the formatter returns on two
    lists, it returns on their concatenation, and the result is the two
    results separated by a newline, or the other result when one of them is
    empty. *)
Theorem format_chat_history_app (lower : pystr -> pystr)
    (l1 l2 : list json) (h1 h2 : pystr) :
  format_chat_history lower (JArr l1) = inr h1 ->
  format_chat_history lower (JArr l2) = inr h2 ->
  format_chat_history lower (JArr (l1 ++ l2))
  = inr (match h1, h2 with
         | [], _ => h2
         | _, [] => h1
         | _, _ => h1 ++ newline ++ h2
         end).
Proof.
  intros H1 H2.
  destruct (format_chat_history_list_inv lower l1 h1 H1) as (t1 & Hr1 & ->).
  destruct (format_chat_history_list_inv lower l2 h2 H2) as (t2 & Hr2 & ->).
  unfold format_chat_history.
  rewrite (format_loop_turns lower (l1 ++ l2) (t1 ++ t2) []
             (read_turns_app l1 l2 t1 t2 Hr1 Hr2)).
  cbn [bind ret app]. rewrite omap_app. f_equal.
  pose proof (join_nil_iff _ (turn_lines_nonempty lower t1)) as N1.
  pose proof (join_nil_iff _ (turn_lines_nonempty lower t2)) as N2.
  destruct (omap (turn_line lower) t1) as [|x a] eqn:E1.
  { reflexivity. }
  assert (J1 : join newline (x :: a) <> []) by (intros J; by apply N1 in J).
  destruct (omap (turn_line lower) t2) as [|y b] eqn:E2.
  { rewrite app_nil_r. by destruct (join newline (x :: a)). }
  assert (J2 : join newline (y :: b) <> []) by (intros J; by apply N2 in J).
  rewrite join_app by done.
  destruct (join newline (x :: a)); [done|].
  by destruct (join newline (y :: b)).
Qed.

Lemma format_chat_history_app_witness :
  format_chat_history ascii_lower
    (JArr ([turn (u8 "user") (u8 "hi")]
           ++ [turn (u8 "tool") (u8 "x"); turn (u8 "bot") (u8 "hello")]))
  = inr (u8 "User: hi" ++ newline ++ u8 "AI: hello").
Proof.
  apply (format_chat_history_app ascii_lower
           [turn (u8 "user") (u8 "hi")]
           [turn (u8 "tool") (u8 "x"); turn (u8 "bot") (u8 "hello")]
           (u8 "User: hi") (u8 "AI: hello")).
  - vm_compute. reflexivity.
  - vm_compute. reflexivity.
Defined.

(** X3: on a list of well-formed turns the formatter returns the empty
    string exactly when no turn has a role that lowercases to "user",
    "assistant" or "bot"; an empty content does not make a line empty. *)
Theorem format_chat_history_empty_iff (lower : pystr -> pystr)
    (items : list json) (turns : list (pystr * pystr)) :
  read_turns items = Some turns ->
  format_chat_history lower (JArr items) = inr []
  <-> Forall (fun t => ~ recognised lower t.1) turns.
Proof.
  intros Hr. unfold format_chat_history.
  rewrite (format_loop_turns lower items turns [] Hr). cbn [bind ret app].
  rewrite <- (Forall_iff (fun t => turn_line lower t = None))
    by (intros t; apply turn_line_none_iff).
  rewrite <- omap_nil_iff, <- (join_nil_iff _ (turn_lines_nonempty lower turns)).
  split; [by intros [= ->] | by intros ->].
Qed.

Lemma format_chat_history_empty_iff_witness :
  format_chat_history ascii_lower
    (JArr [turn (u8 "system") (u8 "be brief"); turn (u8 "tool") (u8 "x")])
  = inr []
  <-> Forall (fun t => ~ recognised ascii_lower t.1)
        [(u8 "system", u8 "be brief"); (u8 "tool", u8 "x")].
Proof.
  apply (format_chat_history_empty_iff ascii_lower).
  vm_compute. reflexivity.
Defined.

(** ** The ways through the handler *)

Section RunCases.

Variable lower : pystr -> pystr.
Variable GROQ_API_KEY : pystr.
Variable app_documentation : pystr.
Variable upstream : post_call -> outcome response.

(** The handler once the question has been read and stripped to [q]. *)
Lemma ai_assistant_after_question (fields : gmap (list N) json) (q : pystr) :
  (fields !! key_question = None /\ q = [])
  \/ (exists s, fields !! key_question = Some (JStr s) /\ q = strip s) ->
  ai_assistant lower GROQ_API_KEY app_documentation (inr (JObj fields)) upstream
  = match app_documentation, q with
    | [], _ => (Failure (Literal documentation_missing) 500, [])
    | _, [] => (Failure (Literal missing_question) 400, [])
    | _, _ =>
        match format_chat_history lower
                (default (JArr []) (fields !! key_history)) with
        | inl e => (Failure (Str e) 500, [])
        | inr h =>
            match complete upstream
                    (build_call GROQ_API_KEY (prompt app_documentation h q)) with
            | inr reply =>
                (reply, [build_call GROQ_API_KEY (prompt app_documentation h q)])
            | inl e =>
                (Failure (Str e) 500,
                 [build_call GROQ_API_KEY (prompt app_documentation h q)])
            end
        end
    end.
Proof.
  intros Hq.
  assert (Hstrip : (question_v <- py_get (JObj fields) key_question (JStr []) ;;
                    py_strip question_v) = inr q).
  { unfold py_get, bind, ret. destruct Hq as [[-> ->] | (s & -> & ->)]; reflexivity. }
  unfold ai_assistant, ai_assistant_try, mbind, lift, mret.
  unfold bind in Hstrip.
  destruct (py_get (JObj fields) key_question (JStr [])) as [e|question_v];
    [discriminate|].
  rewrite Hstrip.
  assert (Hraw : py_get (JObj fields) key_history (JArr [])
                 = inr (default (JArr []) (fields !! key_history))).
  { unfold py_get. by destruct (fields !! key_history). }
  rewrite Hraw.
  destruct app_documentation as [|d ds]; [reflexivity|].
  destruct q as [|c cs]; [reflexivity|].
  destruct (format_chat_history lower _) as [e|h]; [reflexivity|].
  unfold requests_post, complete, bind. simpl.
  destruct (upstream _) as [e|r]; [reflexivity|].
  destruct (raise_for_status r) as [e|[]]; [reflexivity|].
  destruct (response_json r) as [e|result]; [reflexivity|].
  destruct (read_completion result); reflexivity.
Qed.

Lemma ai_assistant_question_not_str (fields : gmap (list N) json) (v : json) :
  fields !! key_question = Some v ->
  (forall s, v <> JStr s) ->
  ai_assistant lower GROQ_API_KEY app_documentation (inr (JObj fields)) upstream
  = (Failure (Str (AttributeError (type_of v) "strip")) 500, []).
Proof.
  intros Hq Hv.
  unfold ai_assistant, ai_assistant_try, mbind, lift, mret, py_get.
  rewrite Hq. destruct v; try reflexivity. by destruct (Hv s).
Qed.

(** Every run of the handler goes one of the six ways. *)
Lemma ai_assistant_run_case (get_json : outcome json) :
  run_case lower GROQ_API_KEY app_documentation get_json upstream
    (ai_assistant lower GROQ_API_KEY app_documentation get_json upstream).
Proof.
  destruct (is_json_object get_json) eqn:Hobj.
  2:{ destruct (ai_assistant_unusable_body lower GROQ_API_KEY upstream
                  app_documentation get_json Hobj) as [e ->].
      by apply run_unusable_body. }
  destruct get_json as [e|[| | | | | |fields]]; try discriminate.
  destruct (fields !! key_question) as [v|] eqn:Hq.
  - assert (Hv : (exists s, v = JStr s) \/ (forall s, v <> JStr s))
      by (destruct v; first [left; by eexists | right; intros ?; discriminate]).
    destruct Hv as [[s ->]|Hv].
    + rewrite (ai_assistant_after_question fields (strip s))
        by (right; by exists s).
      destruct app_documentation as [|d ds] eqn:Hdoc.
      { apply (run_no_documentation _ _ _ _ _ fields); eauto. }
      destruct (strip s) as [|c cs] eqn:Hs.
      { apply (run_blank_question _ _ _ _ _ fields); [done..|].
        unfold blank_question. rewrite Hq. by apply strip_nil_iff. }
      destruct (format_chat_history lower _) as [e|h] eqn:Hh.
      { apply (run_history_raises _ _ _ _ _ fields s e); try done.
        by rewrite Hs. }
      apply (run_call _ _ _ _ _ fields (c :: cs) h); [done|].
      repeat split; try done. by exists s.
    + rewrite (ai_assistant_question_not_str fields v Hq Hv).
      by apply (run_question_not_str _ _ _ _ _ fields v).
  - rewrite (ai_assistant_after_question fields []) by (by left).
    destruct app_documentation as [|d ds] eqn:Hdoc.
    + apply (run_no_documentation _ _ _ _ _ fields); eauto.
    + apply (run_blank_question _ _ _ _ _ fields); [done..|].
      unfold blank_question. by rewrite Hq.
Qed.

End RunCases.

(** ** Reading the reply of the endpoint *)

Lemma bind_inr {A B} (r : outcome A) (k : A -> outcome B) (y : B) :
  bind r k = inr y -> exists a, r = inr a /\ k a = inr y.
Proof. destruct r as [e|a]; simpl; [discriminate | eauto]. Qed.

Lemma py_getitem_inr (v : json) (key : pystr) (x : json) :
  py_getitem v key = inr x ->
  exists fields, v = JObj fields /\ fields !! key = Some x.
Proof.
  destruct v as [| | | | | |fields]; try discriminate. simpl.
  destruct (fields !! key) as [y|] eqn:Hy; [|discriminate].
  intros [= <-]. eauto.
Qed.

Lemma py_get_inr (v : json) (key : pystr) (d x : json) :
  py_get v key d = inr x ->
  exists fields, v = JObj fields /\ x = default d (fields !! key).
Proof.
  destruct v as [| | | | | |fields]; try discriminate. simpl.
  destruct (fields !! key) as [y|] eqn:Hy; intros [= <-];
    exists fields; by rewrite Hy.
Qed.

(** [v[0]] is the head of a list or the first character of a string. *)
Lemma py_getitem_int_0_inr (v x : json) :
  py_getitem_int v 0 = inr x ->
  (exists rest, v = JArr (x :: rest))
  \/ (exists c rest, v = JStr (c :: rest) /\ x = JStr [c]).
Proof.
  destruct v as [| | | |s|items|]; try discriminate.
  - destruct s as [|c rest]; [discriminate|]. intros [= <-]. right. eauto.
  - destruct items as [|y rest]; [discriminate|]. intros [= <-]. left. eauto.
Qed.

Lemma read_completion_inv (result : json) (reply : AssistantResult) :
  read_completion result = inr reply -> completion_shape result reply.
Proof.
  unfold read_completion. intros H.
  apply bind_inr in H as (choices & Hc & H).
  apply bind_inr in H as (choice & H0 & H).
  apply bind_inr in H as (cm & Hm & H).
  apply bind_inr in H as (answer & Ha & H).
  apply bind_inr in H as (model & Hmodel & H).
  apply bind_inr in H as (usage & Hu & H).
  apply bind_inr in H as (tokens & Ht & H).
  injection H as <-.
  apply py_getitem_inr in Hc as (fields & -> & Hc).
  apply py_getitem_inr in Hm as (cfields & -> & Hm).
  apply py_getitem_inr in Ha as (mfields & -> & Ha).
  apply py_get_inr in Hmodel as (fields' & [= <-] & ->).
  apply py_get_inr in Hu as (fields' & [= <-] & ->).
  apply py_get_inr in Ht as (ufields & Hu & ->).
  apply py_getitem_int_0_inr in H0 as [[rest ->] | (c & rest & _ & [=])].
  apply (completion_shape_intro _ _ fields cfields rest mfields answer
           (default (JInt 0) (ufields !! key_total_tokens))); try done.
  destruct (fields !! key_usage) as [u|] eqn:Hfu; simpl in Hu.
  - right. exists ufields. by rewrite Hu.
  - left. injection Hu as <-. by rewrite lookup_empty.
Qed.

Lemma read_completion_shape (result : json) (reply : AssistantResult) :
  completion_shape result reply -> read_completion result = inr reply.
Proof.
  intros [fields choice rest cm answer tokens -> Hc Hm Ha Hu ->].
  unfold read_completion, py_getitem, py_get, bind, ret.
  rewrite Hc, (first_item (JObj choice) rest), Hm, Ha.
  destruct Hu as [[Hu ->] | (usage & Hu & ->)]; rewrite Hu.
  - rewrite lookup_empty. by destruct (fields !! key_model).
  - by destruct (fields !! key_model); destruct (usage !! key_total_tokens).
Qed.

Lemma completion_shape_success (result : json) (reply : AssistantResult) :
  completion_shape result reply ->
  exists answer model tokens, reply = Success answer model tokens.
Proof. intros [? ? ? ? answer tokens _ _ _ _ _ ->]. eauto. Qed.

(** X4: lines 150 to 157 build a success exactly from the replies that are
    an object whose [choices] is a list starting with an object whose
    [message] is an object with a [content], and whose [usage] is missing
    or an object.  The success carries the content as it is, the [model] of
    the reply or null when it is missing, and [usage.total_tokens] or 0
    when [usage] or its [total_tokens] is missing.  Every other reply
    raises. *)
Theorem read_completion_iff (result : json) (reply : AssistantResult) :
  read_completion result = inr reply <-> completion_shape result reply.
Proof.
  split; [apply read_completion_inv | apply read_completion_shape].
Qed.

Lemma complete_inr (upstream : post_call -> outcome response)
    (call : post_call) (reply : AssistantResult) :
  complete upstream call = inr reply ->
  exists r result,
    upstream call = inr r /\ raise_for_status r = inr tt
    /\ response_json r = inr result /\ completion_shape result reply.
Proof.
  unfold complete. intros H.
  apply bind_inr in H as (r & Hr & H).
  apply bind_inr in H as ([] & Hs & H).
  apply bind_inr in H as (result & Hj & H).
  exists r, result. repeat split; try done. by apply read_completion_inv.
Qed.

Lemma raise_for_status_ok (r : response) :
  raise_for_status r = inr tt ->
  ~ (400 <= status_code r < 600)%Z.
Proof.
  unfold raise_for_status.
  destruct ((400 <=? status_code r) && (status_code r <? 600))%Z eqn:H;
    [discriminate|].
  intros _ [H1 H2]. apply andb_false_iff in H as [H|H]; lia.
Qed.

(** ** What the handler answers, and when *)

(** X5: a success reply is given only after exactly one call to the
    endpoint, made for a valid request with the prompt of its
    documentation, formatted history and stripped question: the call
    returned, its status was outside 400 to 599, and its reply had the
    shape from which the success was read. *)
Theorem success_after_one_call (lower : pystr -> pystr)
    (GROQ_API_KEY app_documentation : pystr) (get_json : outcome json)
    (upstream : post_call -> outcome response) (answer model tokens : json) :
  fst (ai_assistant lower GROQ_API_KEY app_documentation get_json upstream)
  = Success answer model tokens ->
  exists fields q h r result,
    get_json = inr (JObj fields)
    /\ valid_request lower app_documentation fields q h
    /\ snd (ai_assistant lower GROQ_API_KEY app_documentation get_json upstream)
       = [build_call GROQ_API_KEY (prompt app_documentation h q)]
    /\ upstream (build_call GROQ_API_KEY (prompt app_documentation h q)) = inr r
    /\ ~ (400 <= status_code r < 600)%Z
    /\ response_json r = inr result
    /\ completion_shape result (Success answer model tokens).
Proof.
  intros Hs.
  pose proof (ai_assistant_run_case lower GROQ_API_KEY app_documentation
                upstream get_json) as Hcase.
  remember (ai_assistant lower GROQ_API_KEY app_documentation get_json upstream)
    as run eqn:Hrun.
  destruct Hcase as [e _ | fields v _ _ _ | fields _ _ _ | fields _ _ _
                    | fields s e _ _ _ _ _ | fields q h Hj Hvalid];
    try discriminate Hs.
  destruct (complete upstream _) as [e|reply] eqn:Hc; [discriminate Hs|].
  simpl in Hs. subst reply.
  apply complete_inr in Hc as (r & result & Hp & Hst & Hjs & Hshape).
  exists fields, q, h, r, result. repeat split; try done.
  - by destruct Hvalid.
  - by destruct Hvalid as (_ & ? & _).
  - by destruct Hvalid as (_ & _ & ? & _).
  - by destruct Hvalid as (_ & _ & _ & ?).
  - by apply raise_for_status_ok.
Qed.

Lemma success_after_one_call_witness :
  exists fields q h r result,
    @inr exn json (Run.request (u8 "How do I mute?") (JArr [])) = inr (JObj fields)
    /\ valid_request ascii_lower Run.corpus fields q h
    /\ snd (ai_assistant ascii_lower Run.api_key Run.corpus
              (inr (Run.request (u8 "How do I mute?") (JArr [])))
              (Run.replies 200 (inr Run.hello_reply)))
       = [build_call Run.api_key (prompt Run.corpus h q)]
    /\ Run.replies 200 (inr Run.hello_reply)
         (build_call Run.api_key (prompt Run.corpus h q)) = inr r
    /\ ~ (400 <= status_code r < 600)%Z
    /\ response_json r = inr result
    /\ completion_shape result
         (Success (JStr (u8 "Hello")) (JStr (u8 "m1")) (JInt 42)).
Proof.
  apply (success_after_one_call ascii_lower Run.api_key Run.corpus
           (inr (Run.request (u8 "How do I mute?") (JArr [])))
           (Run.replies 200 (inr Run.hello_reply))).
  vm_compute. reflexivity.
Defined.

(** X6: the handler answers with status 400 exactly when the documentation
    is not empty and the body is a JSON object whose question is missing,
    empty or all white space; the message is then the one about the missing
    question. *)
Theorem status_400_iff (lower : pystr -> pystr)
    (GROQ_API_KEY app_documentation : pystr) (get_json : outcome json)
    (upstream : post_call -> outcome response) :
  (exists error,
      fst (ai_assistant lower GROQ_API_KEY app_documentation get_json upstream)
      = Failure error 400)
  <-> (app_documentation <> []
       /\ exists fields, get_json = inr (JObj fields)
                         /\ blank_question fields = true).
Proof.
  split.
  - intros [error Hs].
    pose proof (ai_assistant_run_case lower GROQ_API_KEY app_documentation
                  upstream get_json) as Hcase.
    remember (ai_assistant lower GROQ_API_KEY app_documentation get_json upstream)
      as run eqn:Hrun.
    destruct Hcase as [e _ | fields v _ _ _ | fields _ _ _ | fields Hj Hdoc Hb
                      | fields s e _ _ _ _ _ | fields q h Hj Hvalid];
      try discriminate Hs.
    + split; [done|]. by exists fields.
    + destruct (complete upstream _) as [e|reply] eqn:Hc; [discriminate Hs|].
      apply complete_inr in Hc as (r & result & _ & _ & _ & Hshape).
      apply completion_shape_success in Hshape as (a & m & t & ->).
      discriminate Hs.
  - intros (Hdoc & fields & -> & Hb). exists (Literal missing_question).
    unfold blank_question in Hb.
    assert (Hq : (fields !! key_question = None /\ @nil N = [])
                 \/ (exists s, fields !! key_question = Some (JStr s)
                               /\ @nil N = strip s)).
    { destruct (fields !! key_question) as [[| | | |s| |]|]; try discriminate.
      - right. exists s. split; [done|]. symmetry. by apply strip_nil_iff.
      - by left. }
    rewrite (ai_assistant_after_question lower GROQ_API_KEY app_documentation
               upstream fields [] Hq).
    by destruct app_documentation.
Qed.

(** X7: a failure reply has status 500, or status 400 with the message
    about the missing question; the handler gives no other status. *)
Theorem failure_status (lower : pystr -> pystr)
    (GROQ_API_KEY app_documentation : pystr) (get_json : outcome json)
    (upstream : post_call -> outcome response) (error : message) (status : Z) :
  fst (ai_assistant lower GROQ_API_KEY app_documentation get_json upstream)
  = Failure error status ->
  status = 500%Z \/ (status = 400%Z /\ error = Literal missing_question).
Proof.
  intros Hs.
  pose proof (ai_assistant_run_case lower GROQ_API_KEY app_documentation
                upstream get_json) as Hcase.
  remember (ai_assistant lower GROQ_API_KEY app_documentation get_json upstream)
    as run eqn:Hrun.
  destruct Hcase as [e _ | fields v _ _ _ | fields _ _ _ | fields _ _ _
                    | fields s e _ _ _ _ _ | fields q h Hj Hvalid];
    try (injection Hs as <- <-; auto).
  destruct (complete upstream _) as [e|reply] eqn:Hc.
  - injection Hs as <- <-. auto.
  - apply complete_inr in Hc as (r & result & _ & _ & _ & Hshape).
    apply completion_shape_success in Hshape as (a & m & t & ->).
    discriminate Hs.
Qed.

Lemma failure_status_witness :
  (500 = 500)%Z
  \/ ((500 = 400)%Z /\ Str (HTTPError 503) = Literal missing_question).
Proof.
  apply (failure_status ascii_lower Run.api_key Run.corpus
           (inr (Run.request (u8 "How do I mute?") (JArr [])))
           (Run.replies 503 (inr Run.hello_reply))
           (Str (HTTPError 503)) 500).
  vm_compute. reflexivity.
Defined.

(** X8: the handler calls the endpoint at most once, and only for a valid
    request; the call is then the one built from the key and from the
    prompt of the documentation, the formatted history and the stripped
    question.  Whatever fails before that point fails without any call. *)
Theorem at_most_one_call (lower : pystr -> pystr)
    (GROQ_API_KEY app_documentation : pystr) (get_json : outcome json)
    (upstream : post_call -> outcome response) :
  snd (ai_assistant lower GROQ_API_KEY app_documentation get_json upstream) = []
  \/ exists fields q h,
       get_json = inr (JObj fields)
       /\ valid_request lower app_documentation fields q h
       /\ snd (ai_assistant lower GROQ_API_KEY app_documentation get_json upstream)
          = [build_call GROQ_API_KEY (prompt app_documentation h q)].
Proof.
  pose proof (ai_assistant_run_case lower GROQ_API_KEY app_documentation
                upstream get_json) as Hcase.
  remember (ai_assistant lower GROQ_API_KEY app_documentation get_json upstream)
    as run eqn:Hrun.
  destruct Hcase as [e _ | fields v _ _ _ | fields _ _ _ | fields _ _ _
                    | fields s e _ _ _ _ _ | fields q h Hj Hvalid];
    try (by left).
  right. exists fields, q, h. repeat split; try done; try apply Hvalid.
  by destruct (complete upstream _).
Qed.

(** X9: a question that is present but is not a string (null, a number, a
    list, ...) is not treated as missing: [strip] raises on it, and the
    reply is the failure of status 500 carrying that [AttributeError],
    whether or not the documentation is loaded; the endpoint is not
    called. *)
Theorem question_not_str_fails (lower : pystr -> pystr)
    (GROQ_API_KEY app_documentation : pystr) (fields : gmap (list N) json)
    (v : json) (upstream : post_call -> outcome response) :
  fields !! key_question = Some v ->
  (forall s, v <> JStr s) ->
  ai_assistant lower GROQ_API_KEY app_documentation (inr (JObj fields)) upstream
  = (Failure (Str (AttributeError (type_of v) "strip")) 500, []).
Proof.
  intros Hq Hv.
  apply (ai_assistant_question_not_str lower GROQ_API_KEY app_documentation
           upstream fields v Hq Hv).
Qed.

Lemma question_not_str_fails_witness :
  ai_assistant ascii_lower Run.api_key Run.corpus
    (inr (JObj (<[key_question := JNull]> ∅)))
    (Run.replies 200 (inr Run.hello_reply))
  = (Failure (Str (AttributeError NoneType "strip")) 500, []).
Proof.
  apply (question_not_str_fails ascii_lower Run.api_key Run.corpus
           (<[key_question := JNull]> ∅) JNull
           (Run.replies 200 (inr Run.hello_reply))).
  - vm_compute. reflexivity.
  - intros s. discriminate.
Defined.

(** X10: without documentation, a JSON object whose question is missing or
    is any string gets the failure of status 500 with the message about the
    missing documentation: that check comes before the check of the
    question and before the history is looked at. *)
Theorem documentation_missing_message (lower : pystr -> pystr)
    (GROQ_API_KEY : pystr) (fields : gmap (list N) json)
    (upstream : post_call -> outcome response) :
  (fields !! key_question = None
   \/ exists s, fields !! key_question = Some (JStr s)) ->
  ai_assistant lower GROQ_API_KEY [] (inr (JObj fields)) upstream
  = (Failure (Literal documentation_missing) 500, []).
Proof.
  intros [Hq | [s Hq]].
  - by rewrite (ai_assistant_after_question lower GROQ_API_KEY [] upstream
                  fields []) by (by left).
  - by rewrite (ai_assistant_after_question lower GROQ_API_KEY [] upstream
                  fields (strip s)) by (right; by exists s).
Qed.

Lemma documentation_missing_message_witness :
  ai_assistant ascii_lower Run.api_key []
    (inr (Run.request (u8 "How do I mute?") (JArr [JInt 5])))
    (Run.replies 200 (inr Run.hello_reply))
  = (Failure (Literal documentation_missing) 500, []).
Proof.
  apply (documentation_missing_message ascii_lower Run.api_key
           (<[key_question := JStr (u8 "How do I mute?")]>
              (<[key_history := JArr [JInt 5]]> ∅))
           (Run.replies 200 (inr Run.hello_reply))).
  right. exists (u8 "How do I mute?"). vm_compute. reflexivity.
Defined.



(** [strip] removes white space at both ends and nothing else. *)
Lemma strip_between (s : pystr) :
  exists before after,
    s = before ++ strip s ++ after
    /\ forallb isspace before = true /\ forallb isspace after = true.
Proof.
  destruct (lstrip_suffix s) as (before & Hb & Hbs).
  destruct (rstrip_prefix (lstrip s)) as (after & Ha & Has).
  exists before, after. repeat split; try done.
  unfold strip. by rewrite <- Ha.
Qed.

(** X12: for a body whose question [s] holds more than white space, the one
    prompt the handler sends has, under the heading of the question, the
    string [q] obtained from [s] by removing the white space at both ends
    and nothing else: [s] is [q] between two runs of white space, and [q]
    is not empty and neither starts nor ends with white space. *)
Theorem question_has_no_outer_space (lower : pystr -> pystr)
    (GROQ_API_KEY app_documentation : pystr) (fields : gmap (list N) json)
    (s h : pystr) (upstream : post_call -> outcome response) :
  app_documentation <> [] ->
  fields !! key_question = Some (JStr s) ->
  forallb isspace s = false ->
  format_chat_history lower (default (JArr []) (fields !! key_history)) = inr h ->
  exists q before after,
    user_prompts
      (snd (ai_assistant lower GROQ_API_KEY app_documentation
              (inr (JObj fields)) upstream))
    = [prompt_preamble ++ app_documentation
       ++ history_heading ++ history_section h
       ++ question_heading ++ q ++ instructions]
    /\ s = before ++ q ++ after
    /\ forallb isspace before = true
    /\ forallb isspace after = true
    /\ (exists c rest, q = c :: rest /\ isspace c = false)
    /\ (exists c, last q = Some c /\ isspace c = false).
Proof.
  intros Hdoc Hq Hs Hh.
  assert (Hne : strip s <> []).
  { intros E. apply strip_nil_iff in E. congruence. }
  assert (Hvalid : valid_request lower app_documentation fields (strip s) h).
  { repeat split; try done. by exists s. }
  destruct (strip_between s) as (before & after & Hsplit & Hb & Ha).
  exists (strip s), before, after. repeat split; try done.
  - rewrite (valid_request_prompt lower GROQ_API_KEY app_documentation fields
               (strip s) h upstream Hvalid).
    reflexivity.
  - destruct (strip s) as [|c rest] eqn:E; [done|].
    exists c, rest. split; [done|]. by apply (strip_head s c rest).
  - destruct (last (strip s)) as [c|] eqn:E.
    + exists c. split; [done|]. by apply (strip_last s).
    + apply last_None in E. by destruct Hne.
Qed.

Lemma question_has_no_outer_space_witness :
  exists q before after,
    user_prompts
      (snd (ai_assistant ascii_lower Run.api_key Run.corpus
              (inr (JObj (<[key_question := JStr (u8 "  How do I mute? ")]> ∅)))
              Run.unreachable))
    = [prompt_preamble ++ Run.corpus
       ++ history_heading ++ history_section []
       ++ question_heading ++ q ++ instructions]
    /\ u8 "  How do I mute? " = before ++ q ++ after
    /\ forallb isspace before = true
    /\ forallb isspace after = true
    /\ (exists c rest, q = c :: rest /\ isspace c = false)
    /\ (exists c, last q = Some c /\ isspace c = false).
Proof.
  apply (question_has_no_outer_space ascii_lower Run.api_key Run.corpus
           (<[key_question := JStr (u8 "  How do I mute? ")]> ∅)
           (u8 "  How do I mute? ") [] Run.unreachable).
  - discriminate.
  - vm_compute. reflexivity.
  - vm_compute. reflexivity.
  - vm_compute. reflexivity.
Defined.

Example stripped_question_in_prompt :
  user_prompts
    (snd (ai_assistant ascii_lower Run.api_key Run.corpus
            (inr (JObj (<[key_question := JStr (u8 "  How do I mute? ")]> ∅)))
            Run.unreachable))
  = [prompt_preamble ++ Run.corpus
     ++ history_heading ++ u8 "No prior conversation."
     ++ question_heading ++ u8 "How do I mute?" ++ instructions].
Proof. vm_compute. reflexivity. Qed.

(** ** The loader and the start of the process *)

Lemma kept_paragraphs_nil_iff (paragraphs : list pystr) :
  filter (fun text => strip text <> []) paragraphs = []
  <-> Forall (fun text => forallb isspace text = true) paragraphs.
Proof.
  induction paragraphs as [|p ps IH]; [by split; [constructor|]|].
  rewrite filter_cons. case_decide as Hp.
  - split; [discriminate|]. intros H. inversion H as [|? ? Hb _]; subst.
    by apply strip_nil_iff in Hb.
  - split; intros H.
    + constructor; [|by apply IH].
      apply strip_nil_iff. exact Hp.
    + inversion H; subst. by apply IH.
Qed.

Lemma kept_paragraphs_nonempty (paragraphs : list pystr) :
  Forall (fun line => line <> [])
    (filter (fun text => strip text <> []) paragraphs).
Proof.
  apply Forall_forall. intros text Hin.
  apply list_elem_of_filter in Hin as [Hs _]. by intros ->.
Qed.

Lemma load_documentation_nil (document : pystr -> outcome (list pystr))
    (file_path : pystr) :
  load_documentation_from_word document file_path = []
  <-> ((exists e, document file_path = inl e)
       \/ exists paragraphs,
            document file_path = inr paragraphs
            /\ Forall (fun text => forallb isspace text = true) paragraphs).
Proof.
  unfold load_documentation_from_word.
  destruct (document file_path) as [e|paragraphs].
  - split; [intros _; left; by exists e | done].
  - rewrite (join_nil_iff _ (kept_paragraphs_nonempty paragraphs)).
    rewrite kept_paragraphs_nil_iff. split.
    + intros H. right. by exists paragraphs.
    + by intros [[e [=]] | (ps & [= <-] & H)].
Qed.

(** X13: the loader returns the empty string exactly when reading the
    document raises, or when the document has no paragraph that holds
    anything but white space.  In every other case the documentation is not
    empty. *)
Theorem load_documentation_empty_iff (document : pystr -> outcome (list pystr))
    (file_path : pystr) :
  load_documentation_from_word document file_path = []
  <-> ((exists e, document file_path = inl e)
       \/ exists paragraphs,
            document file_path = inr paragraphs
            /\ Forall (fun text => forallb isspace text = true) paragraphs).
Proof. apply load_documentation_nil. Qed.

Example load_keeps_paragraphs_as_written :
  load_documentation_from_word
    (fun _ => inr [u8 " Tap the bell. "; u8 "  "; []; u8 "Then confirm."])
    default_docx_path
  = u8 " Tap the bell. " ++ newline ++ u8 "Then confirm.".
Proof. vm_compute. reflexivity. Qed.

(** X14: a process that started with a document that could not be read, or
    that holds only blank paragraphs, answers every request with a failure
    of status 500 and never calls the endpoint, whatever the body of the
    request and whatever the endpoint would do. *)
Theorem unreadable_documentation_fails_every_request
    (environ : gmap (list N) (list N))
    (document : pystr -> outcome (list pystr))
    (GROQ_API_KEY app_documentation : pystr)
    (lower : pystr -> pystr) (get_json : outcome json)
    (upstream : post_call -> outcome response) :
  start environ document = Started GROQ_API_KEY app_documentation ->
  ((exists e, document (DOCX_PATH environ) = inl e)
   \/ exists paragraphs,
        document (DOCX_PATH environ) = inr paragraphs
        /\ Forall (fun text => forallb isspace text = true) paragraphs) ->
  exists error,
    ai_assistant lower GROQ_API_KEY app_documentation get_json upstream
    = (Failure error 500, []).
Proof.
  intros Hstart Hdoc. apply load_documentation_nil in Hdoc.
  unfold start in Hstart.
  destruct (environ !! env_GROQ_API_KEY) as [[|c key]|]; try discriminate.
  injection Hstart as <- <-. rewrite Hdoc.
  apply ai_assistant_no_documentation.
Qed.

Lemma unreadable_documentation_fails_every_request_witness :
  exists error,
    ai_assistant ascii_lower Run.api_key []
      (inr (Run.request (u8 "How do I mute?") (JArr [])))
      (Run.replies 200 (inr Run.hello_reply))
    = (Failure error 500, []).
Proof.
  apply (unreadable_documentation_fails_every_request
           (<[env_GROQ_API_KEY := Run.api_key]> ∅)
           (fun _ => inl (Raised (u8 "Package not found")))
           Run.api_key []).
  - vm_compute. reflexivity.
  - left. by eexists.
Defined.

(** X15: in a process that started, the key is the value of
    [GROQ_API_KEY] in the environment and is not empty, and every call made
    to the endpoint goes to [GROQ_URL] with the two headers of the source,
    the key being the bearer token. *)
Theorem started_calls_carry_key (environ : gmap (list N) (list N))
    (document : pystr -> outcome (list pystr))
    (GROQ_API_KEY app_documentation : pystr)
    (lower : pystr -> pystr) (get_json : outcome json)
    (upstream : post_call -> outcome response) (call : post_call) :
  start environ document = Started GROQ_API_KEY app_documentation ->
  In call (snd (ai_assistant lower GROQ_API_KEY app_documentation get_json
                  upstream)) ->
  environ !! env_GROQ_API_KEY = Some GROQ_API_KEY
  /\ GROQ_API_KEY <> []
  /\ url call = GROQ_URL
  /\ headers call = [ (u8 "Authorization", u8 "Bearer " ++ GROQ_API_KEY);
                      (u8 "Content-Type", u8 "application/json") ].
Proof.
  intros Hstart Hin. unfold start in Hstart.
  destruct (environ !! env_GROQ_API_KEY) as [[|c key]|]; try discriminate.
  injection Hstart as <- <-.
  pose proof (ai_assistant_run_case lower (c :: key)
                (load_documentation_from_word document (DOCX_PATH environ))
                upstream get_json) as Hcase.
  remember (ai_assistant lower (c :: key) _ get_json upstream) as run eqn:Hrun.
  destruct Hcase as [e _ | fields v _ _ _ | fields _ _ _ | fields _ _ _
                    | fields s e _ _ _ _ _ | fields q h Hj Hvalid];
    try (by destruct Hin).
  assert (Hcall : call = build_call (c :: key)
                           (prompt (load_documentation_from_word document
                                      (DOCX_PATH environ)) h q)).
  { destruct (complete upstream _); simpl in Hin; by destruct Hin as [<-|[]]. }
  subst call. repeat split; done.
Qed.

Lemma started_calls_carry_key_witness :
  (<[env_GROQ_API_KEY := Run.api_key]> ∅ : gmap (list N) (list N))
    !! env_GROQ_API_KEY = Some Run.api_key
  /\ Run.api_key <> []
  /\ url (build_call Run.api_key (prompt Run.corpus [] (u8 "How do I mute?")))
     = GROQ_URL
  /\ headers (build_call Run.api_key (prompt Run.corpus [] (u8 "How do I mute?")))
     = [ (u8 "Authorization", u8 "Bearer " ++ Run.api_key);
         (u8 "Content-Type", u8 "application/json") ].
Proof.
  apply (started_calls_carry_key
           (<[env_GROQ_API_KEY := Run.api_key]> ∅)
           (fun _ => inr [Run.corpus])
           Run.api_key Run.corpus ascii_lower
           (inr (Run.request (u8 " How do I mute? ") (JArr [])))
           Run.unreachable).
  - vm_compute. reflexivity.
  - vm_compute. left. reflexivity.
Defined.

Example start_without_key_refused :
  start (<[env_DOCX_PATH := u8 "guide.docx"]> ∅) (fun _ => inr [Run.corpus])
  = Refused key_not_set
  /\ start (<[env_GROQ_API_KEY := []]> ∅) (fun _ => inr [Run.corpus])
     = Refused key_not_set.
Proof. split; vm_compute; reflexivity. Qed.
